(** * Wallet session, key resolution and signing of [src/auth/hooks/useAuth.ts]

    A shallow embedding of the [useAuth] hook.  The hook closes over the
    recoil atom [walletState], the key store of [../scripts/keystore], the
    LCD client and the key classes of feather.js.  Here the atom, the key
    store's backing storage and the trace of LCD requests form an explicit
    [World] that every operation threads; a [throw] (or a rejected promise
    of an [async] function) is the [Throw] result. *)

From Stdlib Require Import ZArith String List Bool.
From stdpp Require Import gmap strings.

Open Scope string_scope.
Open Scope Z_scope.

(** ** Values of the JavaScript runtime *)

(** A JS number as the hook meets it: an integer or [NaN]
    ([parseInt] and [Number] of a coin-type tag, an account index). *)
Inductive number : Type :=
| NaN
| Int (n : Z).

(** [a === b] on numbers: [NaN] is equal to nothing, itself included. *)
Definition strict_eq (a b : number) : bool :=
  match a, b with
  | Int x, Int y => Z.eqb x y
  | _, _ => false
  end.

(** [n || 0] for an optional number: [undefined], [0] and [NaN] are falsy. *)
Definition or_zero (n : option number) : number :=
  match n with
  | Some (Int z) => Int z
  | _ => Int 0
  end.

(** Truthiness of an optional string property: [undefined] and the empty
    string are falsy. *)
Definition truthy (s : option string) : bool :=
  match s with
  | Some EmptyString => false
  | Some _ => true
  | None => false
  end.

(** [s ?? d] *)
Definition nullish (s : option string) (d : string) : string :=
  match s with
  | Some v => v
  | None => d
  end.

Definition Buffer : Type := list Byte.byte.

(** What a [throw] carries: a plain [Error], the key store's
    [PasswordError], or a [TypeError] raised by the runtime itself. *)
Inductive error : Type :=
| Error (message : string)
| PasswordError (message : string)
| TypeError (message : string).

Inductive result (A : Type) : Type :=
| OK (a : A)
| Throw (e : error).

Arguments OK {A} a.
Arguments Throw {A} e.

(** ** Data model *)

(** A wallet object, stored or connected.  JS objects are bags of optional
    properties: a flag that the code only tests for truthiness or presence
    is a [bool], a property that carries data is an [option]. *)
Module Wallet.
Record t : Type := mk {
  name : string;
  address : option string;        (* legacy single-chain records only *)
  words : gmap string string;     (* coin-type tag to address words *)
  pubkey : option (gmap string string);
  ledger : bool;                  (* [ledger: true] *)
  index : option number;
  bluetooth : bool;
  multisig : bool;                (* [multisig: true] *)
  lock : bool
}.
End Wallet.

(** What [getDecryptedKey] yields: a seed record (["seed" in pk]) or a
    table of raw private keys by coin-type tag. *)
Inductive DecryptedKey : Type :=
| SeedRecord (seed : string) (legacy : bool) (index : option number)
| RawKeyRecord (byCoinType : gmap string string).

(** [createBleTransport] is the only transport the hook ever names. *)
Inductive Transport : Type :=
| createBleTransport.

(** The key objects of feather.js and ledger-station-js, named by what they
    were constructed from.  The constructors of the library check the key
    material and may throw: [new SeedKey] and [new RawKey] of the hook are
    [new_SeedKey] and [new_RawKey] below. *)
Inductive Key : Type :=
| SeedKey (seed : Buffer) (coinType : number) (index : number)
| RawKey (privateKey : Buffer)
| LedgerKey (transport : option Transport) (index : option number)
    (coinType : number).

(** [SignatureV2.SignMode] *)
Inductive SignMode : Type :=
| SIGN_MODE_UNSPECIFIED
| SIGN_MODE_DIRECT
| SIGN_MODE_TEXTUAL
| SIGN_MODE_LEGACY_AMINO_JSON
| SIGN_MODE_EIP_191.

(** The [coinType] parameter of [getPubkey], of type ["330" | "118"]. *)
Inductive CoinTypeTag : Type :=
| tag330
| tag118.

Definition tag (c : CoinTypeTag) : string :=
  match c with
  | tag330 => "330"
  | tag118 => "118"
  end.

(** An entry of the chain registry returned by [useNetwork]. *)
Record Network : Type := {
  coinType : string;
  prefix : string
}.

Record AccountInfo : Type := {
  getAccountNumber : number;
  getSequenceNumber : number
}.

(** [key.ecdsaSign(bytes)] *)
Record EcdsaSignature : Type := {
  signature : option Buffer;
  recid : number
}.

(** The object [signBytes] returns. *)
Record SignedBytes : Type := {
  sb_recid : number;
  sb_signature : string;
  sb_public_key : option string
}.

(** [true | string]: the value of a form validator. *)
Inductive Validation : Type :=
| Valid (b : bool)
| Message (text : string).

(** Objects of the libraries that the hook only passes along. *)
Class Carriers : Type := {
  Storage : Type;            (* backing store of the key store *)
  Tx : Type;
  AuthInfo : Type;
  TxBody : Type;
  Msgs : Type;               (* the fields of CreateTxOptions but two *)
  SignatureV2 : Type;
  PublicKey : Type;
  BroadcastResult : Type;
  auth_info : Tx -> AuthInfo;
  body : Tx -> TxBody;
  PublicKey_key : PublicKey -> string;
  toAmino_value : PublicKey -> string;
  raw_log : BroadcastResult -> string
}.

Section Data.
Context {T : Carriers}.

Record CreateTxOptions : Type := {
  chainID : string;
  signMode : option SignMode;
  msgs : Msgs
}.

(** [{ ...txOptions, signMode }] *)
Definition with_signMode (txOptions : CreateTxOptions)
    (mode : option SignMode) : CreateTxOptions :=
  {| chainID := chainID txOptions; signMode := mode; msgs := msgs txOptions |}.

(** [new SignDoc(chain_id, account_number, sequence, auth_info, tx_body)] *)
Record SignDoc : Type := {
  chain_id : string;
  account_number : number;
  sequence : number;
  sd_auth_info : AuthInfo;
  tx_body : TxBody
}.

(** Requests sent through the LCD client, oldest first. *)
Inductive Call : Type :=
| AccountInfoCall (address : string)
| CreateAndSignTxCall (key : Key) (options : CreateTxOptions)
| BroadcastSyncCall (tx : Tx) (chain : string).

(** The state the hook works on. *)
Record World : Type := {
  wallet : option Wallet.t;   (* the recoil atom [walletState] *)
  storage : Storage;
  calls : list Call
}.

End Data.

(** The modules the hook imports and the built-ins it calls; their code is
    not in [useAuth.ts], so they are parameters of everything below.  Reads
    of the key store take the storage and may throw; [storeWallet],
    [clearWallet] and [wordsFromAddress] are taken to return always (the
    address codec of the specification lists no failure).  Requests to the
    LCD client take the requests made so far, so an answer may depend on the
    history, and may be rejected.  [getDecryptedKey] may return [undefined],
    which the hook tests for.  [SeedKey_refuses] and [RawKey_refuses] give
    what the constructor of the key class throws for its arguments, if it
    throws: a seed of the wrong length, a coin type or index that is no path
    component, a private key that is not one of the curve. *)
Class Env {T : Carriers} : Type := {
  (* ../scripts/keystore *)
  getStoredWallet : string -> Storage -> result Wallet.t;
  storeWallet : Wallet.t -> Storage -> Storage;
  addWallet : Wallet.t -> Storage -> result Storage;
  clearWallet : Storage -> Storage;
  lockWallet : string -> Storage -> result Storage;
  getDecryptedKey : string -> string -> Storage -> result (option DecryptedKey);
  testPassword : string -> string -> Storage -> result Validation;
  (* ../scripts/is *)
  is_local : option Wallet.t -> bool;
  is_ledger : option Wallet.t -> bool;
  is_multisig : option Wallet.t -> bool;
  (* utils/bech32 *)
  wordsFromAddress : string -> string;
  (* useNetwork *)
  networks : gmap string Network;
  (* useInterchainLCDClient *)
  lcd_auth_accountInfo : list Call -> string -> result (option AccountInfo);
  lcd_wallet_createAndSignTx :
    list Call -> Key -> CreateTxOptions -> result Tx;
  lcd_tx_broadcastSync : list Call -> Tx -> string -> result BroadcastResult;
  (* feather.js, ledger-station-js *)
  SeedKey_refuses : Buffer -> number -> number -> option error;
  RawKey_refuses : Buffer -> option error;
  isTxError : BroadcastResult -> bool;
  createSignatureAmino : Key -> SignDoc -> result SignatureV2;
  publicKey : Key -> option PublicKey;
  ecdsaSign : Key -> Buffer -> result EcdsaSignature;
  LedgerKey_create :
    option Transport -> option number -> number -> result Key;
  (* built-ins *)
  parseInt : string -> number;
  Number : string -> number;
  Buffer_from_hex : string -> Buffer;
  toString_base64 : Buffer -> string
}.

(** ** The hook *)

Section UseAuth.
Context {T : Carriers} {E : Env}.

(** A computation of the hook: it reads and writes the world and either
    returns or throws; the world a throw leaves behind is kept. *)
Definition M (A : Type) : Type := World -> result A * World.

Definition ret {A : Type} (a : A) : M A := fun s => (OK a, s).

Definition throw {A : Type} (e : error) : M A := fun s => (Throw e, s).

Definition bind {A B : Type} (m : M A) (k : A -> M B) : M B :=
  fun s =>
    match m s with
    | (OK a, s') => k a s'
    | (Throw e, s') => (Throw e, s')
    end.

(** [try { m } catch (error) { h }] *)
Definition try_catch {A : Type} (m : M A) (h : error -> M A) : M A :=
  fun s =>
    match m s with
    | (OK a, s') => (OK a, s')
    | (Throw e, s') => h e s'
    end.

Definition lift {A : Type} (r : result A) : M A := fun s => (r, s).

Notation "x <- m ;; k" := (bind m (fun x => k))
  (at level 100, m at next level, right associativity).
Notation "m ;; k" := (bind m (fun _ => k))
  (at level 100, right associativity).

(** [wallet] of [useRecoilState(walletState)] *)
Definition useWallet : M (option Wallet.t) := fun s => (OK (wallet s), s).

Definition setWallet (w : option Wallet.t) : M unit :=
  fun s => (OK tt, {| wallet := w; storage := storage s; calls := calls s |}).

(** A read of the key store. *)
Definition read {A : Type} (f : Storage -> result A) : M A :=
  fun s => (f (storage s), s).

(** A write to the key store that cannot fail, and one that can. *)
Definition write (f : Storage -> Storage) : M unit :=
  fun s =>
    (OK tt, {| wallet := wallet s; storage := f (storage s); calls := calls s |}).

Definition write_try (f : Storage -> result Storage) : M unit :=
  fun s =>
    match f (storage s) with
    | OK st => (OK tt, {| wallet := wallet s; storage := st; calls := calls s |})
    | Throw e => (Throw e, s)
    end.

(** An awaited request to the LCD client: it is recorded, answered or
    rejected. *)
Definition request {A : Type} (c : Call) (answer : list Call -> result A)
    : M A :=
  fun s =>
    (answer (calls s),
     {| wallet := wallet s; storage := storage s; calls := calls s ++ [c] |}).

(** [networks[chainID].coinType] *)
Definition network_coinType (chain : string) : M string :=
  match networks !! chain with
  | Some n => ret (coinType n)
  | None =>
      throw (TypeError "Cannot read properties of undefined (reading 'coinType')")
  end.

(** [Buffer.from(value, "hex")] where [value] may be [undefined] *)
Definition Buffer_from (value : option string) : result Buffer :=
  match value with
  | Some s => OK (Buffer_from_hex s)
  | None =>
      Throw (TypeError "The first argument must be of type string or an instance of Buffer, ArrayBuffer, or Array or an Array-like Object. Received undefined")
  end.

(** [new SeedKey({ seed, coinType, index })] and [new RawKey(privateKey)] *)
Definition new_SeedKey (seed : Buffer) (coinType index : number)
    : result Key :=
  match SeedKey_refuses seed coinType index with
  | Some e => Throw e
  | None => OK (SeedKey seed coinType index)
  end.

Definition new_RawKey (privateKey : Buffer) : result Key :=
  match RawKey_refuses privateKey with
  | Some e => Throw e
  | None => OK (RawKey privateKey)
  end.

(* connect *)
Definition connect (name : string) : M unit :=
  storedWallet <- read (getStoredWallet name) ;;
  match Wallet.address storedWallet with
  | Some address =>
      let lock := Wallet.lock storedWallet in
      let words : gmap string string :=
        {[ "330" := wordsFromAddress address ]} in
      if lock then throw (Error "Wallet is locked") else
      let wallet :=
        if is_multisig (Some storedWallet)
        then Wallet.mk name None words None false None false true false
        else Wallet.mk name None words None false None false false false in
      write (storeWallet wallet) ;;
      setWallet (Some wallet)
  | None =>
      let lock := Wallet.lock storedWallet in
      if lock then throw (Error "Wallet is locked") else
      write (storeWallet storedWallet) ;;
      setWallet (Some storedWallet)
  end.

(** [index = 0], [bluetooth = false] and [name = "Ledger"] when omitted. *)
Definition connectLedger (words pubkey : gmap string string)
    (index : number) (bluetooth : bool) (name : string) : M unit :=
  let wallet :=
    Wallet.mk name None words (Some pubkey) true (Some index) bluetooth
      false false in
  write_try (addWallet wallet) ;;
  write (storeWallet wallet) ;;
  setWallet (Some wallet).

(* connected *)
Definition connectedWallet (wallet : option Wallet.t) : option Wallet.t :=
  if negb (is_local wallet) then None else wallet.

Definition getConnectedWallet : M Wallet.t :=
  wallet <- useWallet ;;
  match connectedWallet wallet with
  | None => throw (Error "Wallet is not defined")
  | Some w => ret w
  end.

(* disconnected *)
Definition disconnect : M unit :=
  write clearWallet ;;
  setWallet None.

Definition lock : M unit :=
  w <- getConnectedWallet ;;
  write_try (lockWallet (Wallet.name w)) ;;
  disconnect.

(* helpers *)
Definition getKey (password : string) : M (option DecryptedKey) :=
  w <- getConnectedWallet ;;
  read (getDecryptedKey (Wallet.name w) password).

Definition getLedgerKey (coinType : string) : M Key :=
  wallet <- useWallet ;;
  if negb (is_ledger wallet)
  then throw (Error "Ledger device is not connected")
  else
    match wallet with
    | None =>
        throw (TypeError "Cannot destructure property 'index' of 'wallet' as it is undefined.")
    | Some w =>
        let transport :=
          if Wallet.bluetooth w then Some createBleTransport else None in
        lift (LedgerKey_create transport (Wallet.index w) (Number coinType))
    end.

(* form *)
Definition validatePassword (password : string) : M Validation :=
  try_catch
    (w <- getConnectedWallet ;;
     read (testPassword (Wallet.name w) password))
    (fun _ => ret (Message "Incorrect password")).

(* tx *)
Definition createSignature (tx : Tx) (chainID address password : string)
    : M SignatureV2 :=
  wallet <- useWallet ;;
  match wallet with
  | None => throw (Error "Wallet is not defined")
  | Some _ =>
  accountInfo <-
    request (AccountInfoCall address)
      (fun past => lcd_auth_accountInfo past address) ;;
  match accountInfo with
  | None => throw (Error "Couldn't retrieve account info")
  | Some accountInfo =>
  let doc :=
    {| chain_id := chainID;
       account_number := getAccountNumber accountInfo;
       sequence := getSequenceNumber accountInfo;
       sd_auth_info := auth_info tx;
       tx_body := body tx |} in
  if is_ledger wallet then
    tag <- network_coinType chainID ;;
    key <- getLedgerKey tag ;;
    lift (createSignatureAmino key doc)
  else
    pk <- getKey password ;;
    match pk with
    | None => throw (PasswordError "Incorrect password")
    | Some (SeedRecord seed legacy index) =>
        let seed := Buffer_from_hex seed in
        is330 <-
          (if legacy
           then tag <- network_coinType chainID ;;
                ret (strict_eq (parseInt tag) (Int 330))
           else ret false) ;;
        coinType <-
          (if is330 then ret (Int 118)
           else tag <- network_coinType chainID ;; ret (parseInt tag)) ;;
        key <- lift (new_SeedKey seed coinType (or_zero index)) ;;
        lift (createSignatureAmino key doc)
    | Some (RawKeyRecord pk) =>
        tag <- network_coinType chainID ;;
        if negb (truthy (pk !! tag))
        then throw (PasswordError "Incorrect password")
        else
          tag <- network_coinType chainID ;;
          key <-
            lift (new_RawKey
                    (Buffer_from_hex (nullish (pk !! tag) EmptyString))) ;;
          lift (createSignatureAmino key doc)
    end
  end
  end.

Definition getPubkey (coinType : CoinTypeTag) (password : string)
    : M string :=
  wallet <- useWallet ;;
  match wallet with
  | None => throw (Error "Wallet is not defined")
  | Some _ =>
  if is_ledger wallet then
    key <- getLedgerKey (tag coinType) ;;
    match publicKey key with
    | Some p => ret (PublicKey_key p)
    | None =>
        throw (TypeError "Cannot read properties of undefined (reading 'key')")
    end
  else
    pk <- getKey password ;;
    match pk with
    | None => throw (PasswordError "Incorrect password")
    | Some (SeedRecord seed legacy index) =>
        key <-
          lift (new_SeedKey (Buffer_from_hex seed)
                  (if legacy then Int 118 else parseInt (tag coinType))
                  (or_zero index)) ;;
        match publicKey key with
        | Some p => ret (PublicKey_key p)
        | None =>
            throw (TypeError "Cannot read properties of undefined (reading 'key')")
        end
    | Some (RawKeyRecord pk) =>
        if negb (truthy (pk !! tag coinType))
        then throw (PasswordError "Incorrect password")
        else
          key <-
            lift (new_RawKey
                    (Buffer_from_hex
                       (nullish (pk !! tag coinType) EmptyString))) ;;
          match publicKey key with
          | Some p => ret (PublicKey_key p)
          | None =>
              throw (TypeError "Cannot read properties of undefined (reading 'key')")
          end
    end
  end.

Definition sign (txOptions : CreateTxOptions) (password : string)
    (signMode : option SignMode) : M Tx :=
  wallet <- useWallet ;;
  match wallet with
  | None => throw (Error "Wallet is not defined")
  | Some _ =>
  if is_ledger wallet then
    tag <- network_coinType (chainID txOptions) ;;
    key <- getLedgerKey tag ;;
    let options :=
      with_signMode txOptions (Some SIGN_MODE_LEGACY_AMINO_JSON) in
    request (CreateAndSignTxCall key options)
      (fun past => lcd_wallet_createAndSignTx past key options)
  else
    pk <- getKey password ;;
    match pk with
    | None => throw (PasswordError "Incorrect password")
    | Some (SeedRecord seed legacy index) =>
        let seed := Buffer_from_hex seed in
        is330 <-
          (if legacy
           then tag <- network_coinType (chainID txOptions) ;;
                ret (strict_eq (parseInt tag) (Int 330))
           else ret false) ;;
        coinType <-
          (if is330 then ret (Int 118)
           else tag <- network_coinType (chainID txOptions) ;;
                ret (parseInt tag)) ;;
        key <- lift (new_SeedKey seed coinType (or_zero index)) ;;
        let options := with_signMode txOptions signMode in
        request (CreateAndSignTxCall key options)
          (fun past => lcd_wallet_createAndSignTx past key options)
    | Some (RawKeyRecord pk) =>
        tag <- network_coinType (chainID txOptions) ;;
        if negb (truthy (pk !! tag))
        then throw (PasswordError "Incorrect password")
        else
          tag <- network_coinType (chainID txOptions) ;;
          key <-
            lift (new_RawKey
                    (Buffer_from_hex (nullish (pk !! tag) EmptyString))) ;;
          request (CreateAndSignTxCall key txOptions)
            (fun past => lcd_wallet_createAndSignTx past key txOptions)
    end
  end.

Definition signBytes (bytes : Buffer) (password : string) : M SignedBytes :=
  wallet <- useWallet ;;
  match wallet with
  | None => throw (Error "Wallet is not defined")
  | Some _ =>
  if is_ledger wallet then
    throw (Error "Ledger can not sign arbitrary data")
  else
    pk <- getKey password ;;
    match pk with
    | None => throw (PasswordError "Incorrect password")
    | Some (SeedRecord seed legacy index) =>
        key <-
          lift (new_SeedKey (Buffer_from_hex seed)
                  (if legacy then Int 118 else Int 330)
                  (or_zero index)) ;;
        sig <- lift (ecdsaSign key bytes) ;;
        match signature sig with
        | None => throw (Error "Signature is undefined")
        | Some signature =>
            ret {| sb_recid := recid sig;
                   sb_signature := toString_base64 signature;
                   sb_public_key := option_map toAmino_value (publicKey key) |}
        end
    | Some (RawKeyRecord pk) =>
        privateKey <- lift (Buffer_from (pk !! "330")) ;;
        key <- lift (new_RawKey privateKey) ;;
        sig <- lift (ecdsaSign key bytes) ;;
        match signature sig with
        | None => throw (Error "Signature is undefined")
        | Some signature =>
            ret {| sb_recid := recid sig;
                   sb_signature := toString_base64 signature;
                   sb_public_key := option_map toAmino_value (publicKey key) |}
        end
    end
  end.

Definition post (txOptions : CreateTxOptions) (password : string)
    (signMode : option SignMode) : M BroadcastResult :=
  wallet <- useWallet ;;
  match wallet with
  | None => throw (Error "Wallet is not defined")
  | Some _ =>
  signedTx <- sign txOptions password signMode ;;
  result <-
    request (BroadcastSyncCall signedTx (chainID txOptions))
      (fun past => lcd_tx_broadcastSync past signedTx (chainID txOptions)) ;;
  if isTxError result then throw (Error (raw_log result))
  else ret result
  end.

End UseAuth.

(** ** A small concrete environment

    One instance of the interfaces above on which the operations run: a key
    store held in a map, a registry of two chains, an LCD client that
    answers from its arguments.  The statements below are proved for every
    environment; this one shows that their premises can be met. *)

Module Demo.

(** The key store: per name the wallet object, its password and what the
    password decrypts to; and the persisted connected wallet. *)
Record Store : Type := {
  stored : gmap string (Wallet.t * string * option DecryptedKey);
  user : option Wallet.t
}.

Definition carriers : Carriers :=
  {| Storage := Store;
     Tx := Key * option SignMode;
     AuthInfo := string;
     TxBody := string;
     Msgs := list string;
     SignatureV2 := Key * number;
     PublicKey := string;
     BroadcastResult := Z * string;
     auth_info := fun _ => "auth";
     body := fun _ => "body";
     PublicKey_key := fun p => p;
     toAmino_value := fun p => p;
     raw_log := snd |}.

#[local] Existing Instance carriers.

(** The implementations, under the names of the interface. *)
Module Impl.

Definition getStoredWallet (name : string) (st : Store) : result Wallet.t :=
  match stored st !! name with
  | Some (w, _, _) => OK w
  | None => Throw (Error "Wallet does not exist")
  end.

Definition storeWallet (w : Wallet.t) (st : Store) : Store :=
  {| stored := stored st; user := Some w |}.

Definition addWallet (w : Wallet.t) (st : Store) : result Store :=
  match stored st !! Wallet.name w with
  | Some _ => Throw (Error "Wallet already exists")
  | None =>
      OK {| stored := <[Wallet.name w := (w, EmptyString, None)]> (stored st);
            user := user st |}
  end.

Definition clearWallet (st : Store) : Store :=
  {| stored := stored st; user := None |}.

Definition locked (w : Wallet.t) : Wallet.t :=
  Wallet.mk (Wallet.name w) (Wallet.address w) (Wallet.words w)
    (Wallet.pubkey w) (Wallet.ledger w) (Wallet.index w) (Wallet.bluetooth w)
    (Wallet.multisig w) true.

Definition lockWallet (name : string) (st : Store) : result Store :=
  match stored st !! name with
  | Some (w, p, k) =>
      OK {| stored := <[name := (locked w, p, k)]> (stored st);
            user := user st |}
  | None => Throw (Error "Wallet does not exist")
  end.

Definition getDecryptedKey (name password : string) (st : Store)
    : result (option DecryptedKey) :=
  match stored st !! name with
  | Some (_, p, k) => if String.eqb p password then OK k else OK None
  | None => Throw (Error "Wallet does not exist")
  end.

Definition testPassword (name password : string) (st : Store)
    : result Validation :=
  match stored st !! name with
  | Some (_, p, _) =>
      if String.eqb p password then OK (Valid true)
      else Throw (PasswordError "Incorrect password")
  | None => Throw (Error "Wallet does not exist")
  end.

(** Modelled from the spec: [is.ledger] of [../scripts/is], which is not
    among the sources.  The spec tags a wallet descriptor as one of Local,
    Multisig and Hardware; the hardware one is the wallet that
    [connectLedger] builds, with [ledger: true]. *)
Definition is_ledger (w : option Wallet.t) : bool :=
  match w with
  | Some w => Wallet.ledger w
  | None => false
  end.

(** Modelled from the spec: [is.multisig] of [../scripts/is]; the Multisig
    descriptor is the one [connect] builds with [multisig: true]. *)
Definition is_multisig (w : option Wallet.t) : bool :=
  match w with
  | Some w => Wallet.multisig w
  | None => false
  end.

(** Modelled from the spec: [is.local] of [../scripts/is]; it holds of the
    descriptors tagged Local, those that are neither Hardware nor
    Multisig. *)
Definition is_local (w : option Wallet.t) : bool :=
  match w with
  | Some _ => negb (is_ledger w) && negb (is_multisig w)
  | None => false
  end.

Definition networks : gmap string Network :=
  {[ "phoenix-1" := {| coinType := "330"; prefix := "terra" |};
     "osmosis-1" := {| coinType := "118"; prefix := "osmo" |};
     "injective-1" := {| coinType := "60"; prefix := "inj" |} ]}.

(** Decimal digits only: enough for coin-type tags. *)
Definition digit (c : Ascii.ascii) : option Z :=
  let n := Z.of_nat (Ascii.nat_of_ascii c) in
  if (48 <=? n) && (n <=? 57) then Some (n - 48) else None.

Fixpoint digits (acc : Z) (s : string) : Z :=
  match s with
  | String c rest =>
      match digit c with
      | Some d => digits (10 * acc + d) rest
      | None => acc
      end
  | EmptyString => acc
  end.

Definition parseInt (s : string) : number :=
  match s with
  | String c _ =>
      match digit c with
      | Some _ => Int (digits 0 s)
      | None => NaN
      end
  | EmptyString => NaN
  end.

(** [Buffer.from(text, "hex")]: two digits a byte, up to the first pair
    that is not two hexadecimal digits. *)
Definition nibble (c : Ascii.ascii) : option N :=
  let n := Ascii.N_of_ascii c in
  if ((48 <=? n) && (n <=? 57))%N then Some (n - 48)%N
  else if ((97 <=? n) && (n <=? 102))%N then Some (n - 87)%N
  else if ((65 <=? n) && (n <=? 70))%N then Some (n - 55)%N
  else None.

Fixpoint hex (text : string) : Buffer :=
  match text with
  | String a (String b rest) =>
      match nibble a, nibble b with
      | Some x, Some y =>
          Ascii.byte_of_ascii (Ascii.ascii_of_N (16 * x + y)) :: hex rest
      | _, _ => []
      end
  | _ => []
  end.

(** The number a buffer spells, most significant byte first. *)
Definition big_endian (b : Buffer) : Z :=
  fold_left (fun acc byte => 256 * acc + Z.of_N (Byte.to_N byte)) b 0.

(** The order of the group of secp256k1. *)
Definition curve_order : Z :=
  0xFFFFFFFFFFFFFFFFFFFFFFFFFFFFFFFEBAAEDCE6AF48A03BBFD25E8CD0364141.

(** [new RawKey] derives the public key at once, which needs 32 bytes that
    spell a number from 1 to the order of the curve less 1. *)
Definition RawKey_refuses (privateKey : Buffer) : option error :=
  if negb (Nat.eqb (length privateKey) 32)
  then Some (Error "Expected private key to be an Uint8Array with length 32")
  else if (0 <? big_endian privateKey) && (big_endian privateKey <? curve_order)
  then None
  else Some (Error "Private key is invalid").

(** A component of a derivation path: an integer from 0 to 2^31 - 1. *)
Definition path_component (n : number) : bool :=
  match n with
  | Int z => (0 <=? z) && (z <? 2 ^ 31)
  | NaN => false
  end.

(** [new SeedKey] derives along m/44'/coinType'/0'/0/index from a seed of
    16 to 64 bytes. *)
Definition SeedKey_refuses (seed : Buffer) (coinType index : number)
    : option error :=
  if (length seed <? 16)%nat
  then Some (TypeError "Seed should be at least 128 bits")
  else if (64 <? length seed)%nat
  then Some (TypeError "Seed should be at most 512 bits")
  else if path_component coinType && path_component index then None
  else Some (TypeError "Expected BIP32Path").

(** Stand-ins for what elliptic-curve arithmetic would give. *)
Definition public (key : Key) : string :=
  match key with
  | SeedKey _ (Int 118) _ => "seed/118"
  | SeedKey _ _ _ => "seed"
  | RawKey k => "raw/" ++ string_of_list_byte (firstn 1 k)
  | LedgerKey _ _ _ => "ledger"
  end.

End Impl.

(** Key material: a 16-byte seed and three private keys. *)
Definition seed : string := "5eed5eed5eed5eed5eed5eed5eed5eed".

Definition key1 : string :=
  "4141414141414141414141414141414141414141414141414141414141414141".

Definition key2 : string :=
  "4242424242424242424242424242424242424242424242424242424242424242".

Definition key3 : string :=
  "4343434343434343434343434343434343434343434343434343434343434343".

Definition broadcast (tx : Key * option SignMode) (chain : string)
    : Z * string :=
  if String.eqb chain "osmosis-1" then (5, "insufficient fees")
  else (0, "[]").

Definition env : @Env carriers :=
  {| getStoredWallet := Impl.getStoredWallet;
     storeWallet := Impl.storeWallet;
     addWallet := Impl.addWallet;
     clearWallet := Impl.clearWallet;
     lockWallet := Impl.lockWallet;
     getDecryptedKey := Impl.getDecryptedKey;
     testPassword := Impl.testPassword;
     is_local := Impl.is_local;
     is_ledger := Impl.is_ledger;
     is_multisig := Impl.is_multisig;
     wordsFromAddress := fun a => a;
     networks := Impl.networks;
     lcd_auth_accountInfo := fun past _ =>
       OK (Some {| getAccountNumber := Int 7;
                   getSequenceNumber := Int (Z.of_nat (length past)) |});
     lcd_wallet_createAndSignTx := fun _ key options =>
       OK (key, signMode options);
     lcd_tx_broadcastSync := fun _ tx chain => OK (broadcast tx chain);
     SeedKey_refuses := Impl.SeedKey_refuses;
     RawKey_refuses := Impl.RawKey_refuses;
     isTxError := fun r => negb (fst r =? 0);
     createSignatureAmino := fun key doc => OK (key, sequence doc);
     publicKey := fun key => Some (Impl.public key);
     ecdsaSign := fun _ bytes =>
       OK {| signature := Some bytes; recid := Int 0 |};
     LedgerKey_create := fun t i c => OK (LedgerKey t i c);
     parseInt := Impl.parseInt;
     Number := Impl.parseInt;
     Buffer_from_hex := Impl.hex;
     toString_base64 := string_of_list_byte |}.

(** Stored wallets. *)
Definition local (name : string) (lock : bool) : Wallet.t :=
  Wallet.mk name None {[ "330" := "words-of-" ++ name ]} None false None
    false false lock.

Definition old (name address : string) (lock : bool) : Wallet.t :=
  Wallet.mk name (Some address) ∅ None false None false false lock.

Definition nano : Wallet.t :=
  Wallet.mk "Ledger" None {[ "330" := "words-of-ledger" ]}
    (Some {[ "330" := "pubkey-of-ledger" ]}) true (Some (Int 0)) false
    false false.

Definition store : Store :=
  {| stored :=
       {[ "legacy" := (local "legacy" false, "pw",
                       Some (SeedRecord seed true None));
          "fresh" := (local "fresh" false, "pw",
                      Some (SeedRecord seed false (Some (Int 2))));
          "A" := (local "A" false, "correct-pw",
                  Some (RawKeyRecord {[ "330" := key1 ]}));
          "cosmos" := (local "cosmos" false, "pw",
                       Some (RawKeyRecord {[ "118" := key2 ]}));
          "vault" := (local "vault" true, "pw",
                      Some (SeedRecord seed false None));
          "2019" := (old "2019" "terra1old" true, "pw",
                     Some (RawKeyRecord {[ "330" := key3 ]})) ]};
     user := None |}.

(** The world in which [w] is the connected wallet. *)
Definition connected (w : option Wallet.t) : World :=
  {| wallet := w; storage := store; calls := [] |}.

Definition tx : CreateTxOptions :=
  {| chainID := "phoenix-1"; signMode := None; msgs := ["send"] |}.

Definition tx_on (chain : string) : CreateTxOptions :=
  {| chainID := chain; signMode := None; msgs := ["send"] |}.

Definition unsigned : Key * option SignMode := (RawKey [], None).

(** The keys the stored records give rise to. *)
Definition raw (text : string) : Key := RawKey (Impl.hex text).

Definition derived (coinType index : Z) : Key :=
  SeedKey (Impl.hex seed) (Int coinType) (Int index).

Definition account (sequence : Z) : AccountInfo :=
  {| getAccountNumber := Int 7; getSequenceNumber := Int sequence |}.

(** The world after [connectLedger] on a fresh session. *)
Definition after_connectLedger : World :=
  snd (@connectLedger carriers env {[ "330" := "words-of-ledger" ]}
         {[ "330" := "pubkey-of-ledger" ]} (Int 0) false "Ledger"
         (connected None)).

(** The world of [w] with one account query already made. *)
Definition later (w : option Wallet.t) : World :=
  {| wallet := w; storage := store; calls := [AccountInfoCall "terra1"] |}.

End Demo.

(** ** The rest of the hook: [create] and [encodeEncryptedWallet] *)

(** The object [encodeEncryptedWallet] serialises. *)
Record ExportData : Type := {
  ed_name : string;
  ed_address : string;
  ed_encrypted_key : string
}.

(** What these two functions import besides.  A property that may be
    [undefined] where the hook reads it ([words["330"]], [key["330"]], the
    prefix behind [?.]) reaches the callee as an [option]; a callee may
    throw. *)
Class ExportEnv {T : Carriers} : Type := {
  (* utils/bech32 *)
  addressFromWords : option string -> option string -> result string;
  (* ../scripts/encrypt *)
  encrypt : option string -> string -> result string;
  (* feather.js: key.accAddress(prefix), key.privateKey.toString("hex") *)
  accAddress : Key -> string -> result string;
  privateKey_hex : Key -> result string;
  (* lcd.tx.create(signers, options) *)
  lcd_tx_create : list Call -> list string -> CreateTxOptions -> result Tx;
  (* JSON.stringify, and encode of js-base64 *)
  JSON_stringify : ExportData -> string;
  encode : string -> string
}.

Section UseAuthRest.
Context {T : Carriers} {E : Env} {X : ExportEnv}.

Notation "x <- m ;; k" := (bind m (fun x => k))
  (at level 100, m at next level, right associativity).

(** An awaited query answered from the requests made so far.  The trace
    keeps the three kinds of request of [Call]; a query leaves it as it
    is. *)
Definition query {A : Type} (answer : list Call -> result A) : M A :=
  fun s => (answer (calls s), s).

(* manage: export *)
Definition encodeEncryptedWallet (password : string) : M string :=
  w <- getConnectedWallet ;;
  let name := Wallet.name w in
  let words := Wallet.words w in
  key <- getKey password ;;
  match key with
  | None => throw (PasswordError "Key do not exist")
  | Some (SeedRecord seed legacy index) =>
      seed <-
        lift (new_SeedKey (Buffer_from_hex seed)
                (if legacy then Int 118 else Int 330)
                (or_zero index)) ;;
      address <- lift (accAddress seed "terra") ;;
      hex <- lift (privateKey_hex seed) ;;
      encrypted_key <- lift (encrypt (Some hex) password) ;;
      let data :=
        {| ed_name := name;
           ed_address := address;
           ed_encrypted_key := encrypted_key |} in
      ret (encode (JSON_stringify data))
  | Some (RawKeyRecord key) =>
      address <- lift (addressFromWords (words !! "330") (Some "terra")) ;;
      encrypted_key <- lift (encrypt (key !! "330") password) ;;
      let data :=
        {| ed_name := name;
           ed_address := address;
           ed_encrypted_key := encrypted_key |} in
      ret (encode (JSON_stringify data))
  end.

(* tx *)
Definition create (txOptions : CreateTxOptions) : M Tx :=
  wallet <- useWallet ;;
  match wallet with
  | None => throw (Error "Wallet is not defined")
  | Some w =>
      let words := Wallet.words w in
      tag <- network_coinType (chainID txOptions) ;;
      let prefix := option_map prefix (networks !! chainID txOptions) in
      address <-
        lift (addressFromWords (Some (nullish (words !! tag) EmptyString))
                prefix) ;;
      query (fun past => lcd_tx_create past [address] txOptions)
  end.

End UseAuthRest.

(** A concrete instance of these imports, and more stored wallets. *)
Module Rest.

#[local] Existing Instance Demo.carriers.
#[local] Existing Instance Demo.env.

Definition bech32 (words prefix : option string) : result string :=
  match words, prefix with
  | Some w, Some p => OK (p ++ "1" ++ w)
  | _, _ => Throw (TypeError "The first argument must be of type string")
  end.

Definition sealed (message : option string) (password : string)
    : result string :=
  match message with
  | Some m => OK (m ++ "@" ++ password)
  | None => Throw (TypeError "Cannot read properties of undefined")
  end.

Definition secret (key : Key) : string :=
  match key with
  | SeedKey _ (Int 118) _ => "derived/118"
  | SeedKey _ _ _ => "derived/330"
  | RawKey _ => "raw"
  | LedgerKey _ _ _ => "device"
  end.

Definition env : @ExportEnv Demo.carriers :=
  {| addressFromWords := bech32;
     encrypt := sealed;
     accAddress := fun key prefix =>
       OK (prefix ++ "1" ++ nullish (publicKey key) EmptyString);
     privateKey_hex := fun key => OK (secret key);
     lcd_tx_create := fun _ signers options =>
       OK (RawKey (list_byte_of_string (String.concat "," signers)),
           signMode options);
     JSON_stringify := fun d =>
       ed_name d ++ "|" ++ ed_address d ++ "|" ++ ed_encrypted_key d;
     encode := fun text => text |}.

Definition store : Demo.Store :=
  {| Demo.stored :=
       {[ "2020" := (Demo.old "2020" "terra1legacy" false, "pw",
                     Some (RawKeyRecord {[ "330" := Demo.key3 ]}));
          "shared" := (Wallet.mk "shared" (Some "terra1multi") ∅ None false
                         None false true false, "pw", None);
          "fresh" := (Demo.local "fresh" false, "pw",
                      Some (SeedRecord Demo.seed false (Some (Int 2))));
          "A" := (Demo.local "A" false, "correct-pw",
                  Some (RawKeyRecord {[ "330" := Demo.key1 ]})) ]};
     Demo.user := None |}.

(** The world over [store] in which [w] is the connected wallet. *)
Definition connected (w : option Wallet.t) : World :=
  {| wallet := w; storage := store; calls := [] |}.

(** The descriptor [connect] builds for the record "shared". *)
Definition shared : Wallet.t :=
  Wallet.mk "shared" None {[ "330" := "terra1multi" ]} None false None false
    true false.

(** The key store once "fresh" has been locked. *)
Definition locked_store : Demo.Store :=
  match Demo.Impl.lockWallet "fresh" store with
  | OK st => st
  | Throw _ => store
  end.

(** A key store in which "A" holds a key for a second coin type. *)
Definition store_two : Demo.Store :=
  {| Demo.stored :=
       {[ "A" := (Demo.local "A" false, "correct-pw",
                  Some (RawKeyRecord
                          {[ "330" := Demo.key1; "118" := Demo.key2 ]})) ]};
     Demo.user := None |}.

(** The environment [Demo.env] with an LCD client that finds no account. *)
Definition offline : @Env Demo.carriers :=
  {| getStoredWallet := Demo.Impl.getStoredWallet;
     storeWallet := Demo.Impl.storeWallet;
     addWallet := Demo.Impl.addWallet;
     clearWallet := Demo.Impl.clearWallet;
     lockWallet := Demo.Impl.lockWallet;
     getDecryptedKey := Demo.Impl.getDecryptedKey;
     testPassword := Demo.Impl.testPassword;
     is_local := Demo.Impl.is_local;
     is_ledger := Demo.Impl.is_ledger;
     is_multisig := Demo.Impl.is_multisig;
     wordsFromAddress := fun a => a;
     networks := Demo.Impl.networks;
     lcd_auth_accountInfo := fun _ _ => OK None;
     lcd_wallet_createAndSignTx := @lcd_wallet_createAndSignTx _ Demo.env;
     lcd_tx_broadcastSync := @lcd_tx_broadcastSync _ Demo.env;
     SeedKey_refuses := Demo.Impl.SeedKey_refuses;
     RawKey_refuses := Demo.Impl.RawKey_refuses;
     isTxError := @isTxError _ Demo.env;
     createSignatureAmino := @createSignatureAmino _ Demo.env;
     publicKey := @publicKey _ Demo.env;
     ecdsaSign := @ecdsaSign _ Demo.env;
     LedgerKey_create := @LedgerKey_create _ Demo.env;
     parseInt := Demo.Impl.parseInt;
     Number := Demo.Impl.parseInt;
     Buffer_from_hex := Demo.Impl.hex;
     toString_base64 := string_of_list_byte |}.

End Rest.

(** ** What the specification says, in its own words *)

(** The effective coin type of a seed record: [118] when [legacy] is set and
    the requested coin type is the default [330], the requested coin type
    otherwise. *)
Definition spec_effectiveCoinType (legacy : bool) (requested : number)
    : number :=
  if legacy && strict_eq requested (Int 330) then Int 118 else requested.

(** How many of the requests are broadcasts. *)
Definition is_broadcast {T : Carriers} (c : Call) : bool :=
  match c with
  | BroadcastSyncCall _ _ => true
  | _ => false
  end.

Definition broadcasts {T : Carriers} (l : list Call) : nat :=
  length (List.filter is_broadcast l).

(** A sentence of the specification as it stands, for comparison with what
    the hook does. *)

(** [getConnected] returns the connected descriptor whenever a descriptor of
    any kind is connected, and fails exactly when none is. *)
Definition getConnected_returns_any_kind {T : Carriers} {E : Env} : Prop :=
  forall s : World,
    (forall w, wallet s = Some w -> fst (getConnectedWallet s) = OK w) /\
    (fst (getConnectedWallet s) = Throw (Error "Wallet is not defined") <->
     wallet s = None).

(** ** Vocabulary of the statements *)

Section Vocabulary.
Context {T : Carriers} {E : Env}.

(** The world once the request [c] has been recorded. *)
Definition logged (c : Call) (s : World) : World :=
  {| wallet := wallet s; storage := storage s; calls := calls s ++ [c] |}.

(** The sign document [createSignature] builds from the account data. *)
Definition docOf (tx : Tx) (chainID : string) (info : AccountInfo) : SignDoc :=
  {| chain_id := chainID;
     account_number := getAccountNumber info;
     sequence := getSequenceNumber info;
     sd_auth_info := auth_info tx;
     tx_body := body tx |}.

(** [throw new PasswordError("Incorrect password")] *)
Definition incorrect {A : Type} : result A :=
  Throw (PasswordError "Incorrect password").

(** What comes of going on with a result: its value is used, its throw is
    the outcome. *)
Definition and_then {A B : Type} (r : result A) (f : A -> result B)
    : result B :=
  match r with
  | OK a => f a
  | Throw e => Throw e
  end.

(** The public key string of a key, as [key.publicKey.key] gives it: a
    [TypeError] when the key has no public key. *)
Definition public_key_of (key : Key) : result string :=
  match publicKey key with
  | Some p => OK (PublicKey_key p)
  | None =>
      Throw (TypeError "Cannot read properties of undefined (reading 'key')")
  end.

(** What signing [bytes] with [key] gives: the failure of [ecdsaSign],
    "Signature is undefined" when it returns no signature, and otherwise
    the recovery id, the signature in base64 and the amino value of the
    public key, if the key has one. *)
Definition signed_by (key : Key) (bytes : Buffer) : result SignedBytes :=
  match ecdsaSign key bytes with
  | Throw e => Throw e
  | OK sig =>
      match signature sig with
      | None => Throw (Error "Signature is undefined")
      | Some b =>
          OK {| sb_recid := recid sig;
                sb_signature := toString_base64 b;
                sb_public_key := option_map toAmino_value (publicKey key) |}
      end
  end.

(** A stored entry that is a private key, the [hexPrivateKey] of the
    specification: a non-empty string whose bytes [new RawKey] accepts. *)
Definition is_private_key (text : string) : Prop :=
  text <> EmptyString /\ RawKey_refuses (Buffer_from_hex text) = None.

(** A computation is quiet when it sends no broadcast and leaves the
    connected wallet and the key store alone. *)
Definition frame (s s' : World) : Prop :=
  wallet s' = wallet s /\ storage s' = storage s /\
  broadcasts (calls s') = broadcasts (calls s).

Definition quiet {A : Type} (m : M A) : Prop :=
  forall s, frame s (snd (m s)).

End Vocabulary.

Section VocabularyRest.
Context {T : Carriers} {E : Env}.

(** A computation is silent when it leaves the whole world as it found it:
    the connected wallet, the key store and the trace. *)
Definition silent {A : Type} (m : M A) : Prop :=
  forall s, snd (m s) = s.

(** A computation signs through the LCD wallet when it either throws
    without having changed anything, or makes the one request
    [createAndSignTx], for options that have the chain and the messages of
    [txOptions], and returns the answer. *)
Definition signs_through_lcd (txOptions : CreateTxOptions) (m : M Tx)
    : Prop :=
  forall s,
    (exists e, m s = (Throw e, s)) \/
    (exists key options,
       m s = (lcd_wallet_createAndSignTx (calls s) key options,
              logged (CreateAndSignTxCall key options) s) /\
       chainID options = chainID txOptions /\
       msgs options = msgs txOptions).

(** The [TypeError] of reading [coinType] off a chain that the registry
    does not have. *)
Definition unknown_chain {A : Type} : result A :=
  Throw (TypeError "Cannot read properties of undefined (reading 'coinType')").

(** The transport [getLedgerKey] passes for a descriptor. *)
Definition transport_of (w : Wallet.t) : option Transport :=
  if Wallet.bluetooth w then Some createBleTransport else None.

End VocabularyRest.

(** ** Properties *)

Section Properties.
Context {T : Carriers} {E : Env}.

(** Unfolds the plumbing of the monad, leaving the calls to the environment. *)
Ltac plumbing :=
  unfold bind, ret, throw, lift, try_catch, useWallet, setWallet, read, write,
    write_try, request in *.

Ltac run :=
  unfold getKey, getConnectedWallet, connectedWallet, network_coinType in *;
  plumbing; simpl in *.

(** *** Session *)

Lemma getConnectedWallet_eq (s : World) :
  getConnectedWallet s =
  match wallet s with
  | Some w =>
      if is_local (Some w) then (OK w, s)
      else (Throw (Error "Wallet is not defined"), s)
  | None => (Throw (Error "Wallet is not defined"), s)
  end.
Proof.
  run. destruct (wallet s) as [w|].
  - destruct (is_local (Some w)); reflexivity.
  - destruct (is_local None); reflexivity.
Qed.

Lemma getKey_local (password : string) (s : World) (w : Wallet.t) :
  wallet s = Some w ->
  is_local (Some w) = true ->
  getKey password s = (getDecryptedKey (Wallet.name w) password (storage s), s).
Proof.
  intros Hw Hl. unfold getKey, bind. rewrite getConnectedWallet_eq, Hw, Hl.
  reflexivity.
Qed.

(** C2. When the stored record of [name] has its lock flag set, [connect]
    throws "Wallet is locked" and leaves the world as it was: the connected
    wallet and the key store are untouched. *)
Theorem connect_locked (name : string) (s : World) (storedWallet : Wallet.t) :
  getStoredWallet name (storage s) = OK storedWallet ->
  Wallet.lock storedWallet = true ->
  connect name s = (Throw (Error "Wallet is locked"), s).
Proof.
  intros Hget Hlock. unfold connect. plumbing. rewrite Hget.
  destruct (Wallet.address storedWallet); rewrite Hlock; reflexivity.
Qed.

(** C5, as amended. [getConnectedWallet] returns the connected wallet exactly
    when that wallet passes [is.local]; in every other case, no wallet or a
    wallet that is not local, it throws "Wallet is not defined".  It never
    changes the world. *)
Theorem getConnectedWallet_local_only (s : World) :
  (forall w : Wallet.t,
     fst (getConnectedWallet s) = OK w <->
     wallet s = Some w /\ is_local (Some w) = true) /\
  (fst (getConnectedWallet s) = Throw (Error "Wallet is not defined") <->
   ~ exists w, wallet s = Some w /\ is_local (Some w) = true) /\
  snd (getConnectedWallet s) = s.
Proof.
  rewrite getConnectedWallet_eq.
  destruct (wallet s) as [w0|] eqn:Hw.
  - destruct (is_local (Some w0)) eqn:Hl; simpl.
    + split; [|split]; [| |reflexivity].
      * intros w. split.
        -- intros [= ->]. auto.
        -- intros [[= ->] _]. reflexivity.
      * split; [discriminate|]. intros H. exfalso. apply H. eauto.
    + split; [|split]; [| |reflexivity].
      * intros w. split; [discriminate|].
        intros [[= ->] Hl']. congruence.
      * split; [|reflexivity]. intros _ [w [[= ->] Hl']]. congruence.
  - simpl. split; [|split]; [| |reflexivity].
    + intros w. split; [discriminate|]. intros [? _]. discriminate.
    + split; [|reflexivity]. intros _ [w [? _]]. discriminate.
Qed.

(** C10. [validatePassword] always returns a value and never throws or
    changes the world.  When [getConnectedWallet] throws, the value is the
    string "Incorrect password"; when a wallet is connected and the key
    store's [testPassword] returns, the value is what it returned; and any
    other value than that string can only have come from [testPassword] on a
    connected wallet. *)
Theorem validatePassword_never_throws (password : string) (s : World) :
  (exists v, validatePassword password s = (OK v, s)) /\
  (forall e, fst (getConnectedWallet s) = Throw e ->
     fst (validatePassword password s) = OK (Message "Incorrect password")) /\
  (forall w v, fst (getConnectedWallet s) = OK w ->
     testPassword (Wallet.name w) password (storage s) = OK v ->
     fst (validatePassword password s) = OK v) /\
  (forall v, fst (validatePassword password s) = OK v ->
     v <> Message "Incorrect password" ->
     exists w, wallet s = Some w /\ is_local (Some w) = true /\
       testPassword (Wallet.name w) password (storage s) = OK v).
Proof.
  unfold validatePassword, try_catch, bind, read, ret.
  rewrite getConnectedWallet_eq.
  destruct (wallet s) as [w0|] eqn:Hw.
  - destruct (is_local (Some w0)) eqn:Hl; simpl.
    + destruct (testPassword (Wallet.name w0) password (storage s)) as [v0|e0]
        eqn:Ht; simpl.
      * repeat split; eauto.
        -- discriminate.
        -- intros w v [= <-]. rewrite Ht. auto.
        -- intros v [= <-] _. eauto.
      * repeat split; eauto.
        -- intros w v [= <-]. rewrite Ht. discriminate.
        -- intros v [= <-] Hv. congruence.
    + repeat split; eauto.
      * discriminate.
      * intros v [= <-] Hv. congruence.
  - simpl. repeat split; eauto.
    + discriminate.
    + intros v [= <-] Hv. congruence.
Qed.

(** *** Arbitrary bytes on a hardware wallet *)

(** C4. With a hardware wallet connected, [signBytes] throws "Ledger can not
    sign arbitrary data" for every payload and password; the world is
    unchanged, and neither the key store nor the device is consulted. *)
Theorem signBytes_ledger_unsupported (bytes : Buffer) (password : string)
    (s : World) (w : Wallet.t) :
  wallet s = Some w ->
  is_ledger (Some w) = true ->
  signBytes bytes password s =
  (Throw (Error "Ledger can not sign arbitrary data"), s).
Proof.
  intros Hw Hl. unfold signBytes. plumbing. rewrite Hw, Hl. reflexivity.
Qed.

(** *** Constructors and operators

    What the small definitions of the model amount to, in terms of the
    environment and of plain values. *)

Lemma new_SeedKey_spec (seed : Buffer) (coinType index : number) :
  (SeedKey_refuses seed coinType index = None ->
   new_SeedKey seed coinType index = OK (SeedKey seed coinType index)) /\
  (forall e, SeedKey_refuses seed coinType index = Some e ->
   new_SeedKey seed coinType index = Throw e).
Proof.
  unfold new_SeedKey. split.
  - intros ->. reflexivity.
  - intros e ->. reflexivity.
Qed.

Lemma new_RawKey_spec (privateKey : Buffer) :
  (RawKey_refuses privateKey = None ->
   new_RawKey privateKey = OK (RawKey privateKey)) /\
  (forall e, RawKey_refuses privateKey = Some e ->
   new_RawKey privateKey = Throw e).
Proof.
  unfold new_RawKey. split.
  - intros ->. reflexivity.
  - intros e ->. reflexivity.
Qed.

Lemma with_signMode_spec (txOptions : CreateTxOptions)
    (mode : option SignMode) :
  signMode (with_signMode txOptions mode) = mode /\
  chainID (with_signMode txOptions mode) = chainID txOptions /\
  msgs (with_signMode txOptions mode) = msgs txOptions.
Proof. repeat split. Qed.

Lemma or_zero_spec (n : option number) :
  (forall z, n = Some (Int z) -> or_zero n = Int z) /\
  (n = None \/ n = Some NaN -> or_zero n = Int 0).
Proof.
  split.
  - intros z ->. reflexivity.
  - intros [-> | ->]; reflexivity.
Qed.

Lemma strict_eq_spec (a b : number) :
  strict_eq a b = true <-> exists z, a = Int z /\ b = Int z.
Proof.
  destruct a as [|x], b as [|y]; simpl; split;
    try discriminate; try (intros [z [? ?]]; discriminate).
  - intros H. apply Z.eqb_eq in H. subst y. eauto.
  - intros [z [[= ->] [= ->]]]. apply Z.eqb_refl.
Qed.

Lemma truthy_spec (value : option string) :
  truthy value = true <-> exists text, value = Some text /\ text <> EmptyString.
Proof.
  destruct value as [[|a rest]|]; simpl; split;
    try discriminate; try (intros [text [? ?]]; congruence).
  intros _. eexists. split; [reflexivity|discriminate].
Qed.

Lemma nullish_spec (value : option string) (default : string) :
  (forall text, value = Some text -> nullish value default = text) /\
  (value = None -> nullish value default = default).
Proof.
  split.
  - intros text ->. reflexivity.
  - intros ->. reflexivity.
Qed.

(** *** Key resolution

    For a connected wallet that is local and not a hardware wallet, each
    operation reduces to a case distinction on what the key store decrypts,
    followed by the construction of the key, which may throw.  The four
    lemmas below compute that reduction once; the claims follow from
    them. *)

Lemma createSignature_resolved (tx : Tx) (chainID address password : string)
    (s : World) (w : Wallet.t) (n : Network) (info : AccountInfo) :
  wallet s = Some w ->
  is_ledger (Some w) = false ->
  is_local (Some w) = true ->
  networks !! chainID = Some n ->
  lcd_auth_accountInfo (calls s) address = OK (Some info) ->
  createSignature tx chainID address password s =
  (match getDecryptedKey (Wallet.name w) password (storage s) with
   | Throw e => Throw e
   | OK None => incorrect
   | OK (Some (SeedRecord seed legacy index)) =>
       and_then
         (new_SeedKey (Buffer_from_hex seed)
            (spec_effectiveCoinType legacy (parseInt (coinType n)))
            (or_zero index))
         (fun key => createSignatureAmino key (docOf tx chainID info))
   | OK (Some (RawKeyRecord pk)) =>
       if truthy (pk !! coinType n)
       then and_then
              (new_RawKey
                 (Buffer_from_hex (nullish (pk !! coinType n) EmptyString)))
              (fun key => createSignatureAmino key (docOf tx chainID info))
       else incorrect
   end, logged (AccountInfoCall address) s).
Proof.
  intros Hw Hled Hloc Hnet Hacc.
  unfold createSignature, spec_effectiveCoinType, incorrect, logged, docOf,
    and_then.
  destruct s as [wl st cs]; simpl in *; subst wl.
  run. rewrite Hacc, Hled. simpl. rewrite Hloc, Hnet. simpl.
  destruct (getDecryptedKey (Wallet.name w) password st)
    as [[[seed legacy index|pk]|]|e]; simpl; try reflexivity.
  - destruct legacy; simpl.
    + destruct (strict_eq (parseInt (coinType n)) (Int 330)); simpl;
        destruct (new_SeedKey _ _ _); reflexivity.
    + destruct (new_SeedKey _ _ _); reflexivity.
  - destruct (truthy (pk !! coinType n)); simpl; [|reflexivity].
    destruct (new_RawKey _); reflexivity.
Qed.

Lemma sign_resolved (txOptions : CreateTxOptions) (password : string)
    (signMode : option SignMode) (s : World) (w : Wallet.t) (n : Network) :
  wallet s = Some w ->
  is_ledger (Some w) = false ->
  is_local (Some w) = true ->
  networks !! chainID txOptions = Some n ->
  sign txOptions password signMode s =
  match getDecryptedKey (Wallet.name w) password (storage s) with
  | Throw e => (Throw e, s)
  | OK None => (incorrect, s)
  | OK (Some (SeedRecord seed legacy index)) =>
      match
        new_SeedKey (Buffer_from_hex seed)
          (spec_effectiveCoinType legacy (parseInt (coinType n)))
          (or_zero index)
      with
      | Throw e => (Throw e, s)
      | OK key =>
          let options := with_signMode txOptions signMode in
          (lcd_wallet_createAndSignTx (calls s) key options,
           logged (CreateAndSignTxCall key options) s)
      end
  | OK (Some (RawKeyRecord pk)) =>
      if truthy (pk !! coinType n)
      then
        match
          new_RawKey
            (Buffer_from_hex (nullish (pk !! coinType n) EmptyString))
        with
        | Throw e => (Throw e, s)
        | OK key =>
            (lcd_wallet_createAndSignTx (calls s) key txOptions,
             logged (CreateAndSignTxCall key txOptions) s)
        end
      else (incorrect, s)
  end.
Proof.
  intros Hw Hled Hloc Hnet.
  unfold sign, spec_effectiveCoinType, incorrect, logged.
  destruct s as [wl st cs]; simpl in *; subst wl.
  run. rewrite Hled. simpl. rewrite Hloc, Hnet. simpl.
  destruct (getDecryptedKey (Wallet.name w) password st)
    as [[[seed legacy index|pk]|]|e]; simpl; try reflexivity.
  - destruct legacy; simpl.
    + destruct (strict_eq (parseInt (coinType n)) (Int 330)); simpl;
        destruct (new_SeedKey _ _ _); reflexivity.
    + destruct (new_SeedKey _ _ _); reflexivity.
  - destruct (truthy (pk !! coinType n)); simpl; [|reflexivity].
    destruct (new_RawKey _); reflexivity.
Qed.

Lemma getPubkey_resolved (c : CoinTypeTag) (password : string) (s : World)
    (w : Wallet.t) :
  wallet s = Some w ->
  is_ledger (Some w) = false ->
  is_local (Some w) = true ->
  getPubkey c password s =
  (match getDecryptedKey (Wallet.name w) password (storage s) with
   | Throw e => Throw e
   | OK None => incorrect
   | OK (Some (SeedRecord seed legacy index)) =>
       and_then
         (new_SeedKey (Buffer_from_hex seed)
            (if legacy then Int 118 else parseInt (tag c)) (or_zero index))
         public_key_of
   | OK (Some (RawKeyRecord pk)) =>
       if truthy (pk !! tag c)
       then and_then
              (new_RawKey
                 (Buffer_from_hex (nullish (pk !! tag c) EmptyString)))
              public_key_of
       else incorrect
   end, s).
Proof.
  intros Hw Hled Hloc. unfold getPubkey, incorrect, and_then, public_key_of.
  destruct s as [wl st cs]; simpl in *; subst wl.
  run. rewrite Hled. simpl. rewrite Hloc. simpl.
  destruct (getDecryptedKey (Wallet.name w) password st)
    as [[[seed legacy index|pk]|]|e]; simpl; try reflexivity.
  - destruct (new_SeedKey _ _ _) as [key|e]; [|reflexivity].
    destruct (publicKey key); reflexivity.
  - destruct (truthy (pk !! tag c)); simpl; [|reflexivity].
    destruct (new_RawKey _) as [key|e]; [|reflexivity].
    destruct (publicKey key); reflexivity.
Qed.

Lemma signBytes_resolved (bytes : Buffer) (password : string) (s : World)
    (w : Wallet.t) :
  wallet s = Some w ->
  is_ledger (Some w) = false ->
  is_local (Some w) = true ->
  signBytes bytes password s =
  (match getDecryptedKey (Wallet.name w) password (storage s) with
   | Throw e => Throw e
   | OK None => incorrect
   | OK (Some (SeedRecord seed legacy index)) =>
       and_then
         (new_SeedKey (Buffer_from_hex seed)
            (if legacy then Int 118 else Int 330) (or_zero index))
         (fun key => signed_by key bytes)
   | OK (Some (RawKeyRecord pk)) =>
       and_then (Buffer_from (pk !! "330"))
         (fun privateKey =>
            and_then (new_RawKey privateKey)
              (fun key => signed_by key bytes))
   end, s).
Proof.
  intros Hw Hled Hloc. unfold signBytes, incorrect, and_then, signed_by.
  destruct s as [wl st cs]; simpl in *; subst wl.
  run. rewrite Hled. simpl. rewrite Hloc. simpl.
  destruct (getDecryptedKey (Wallet.name w) password st)
    as [[[seed legacy index|pk]|]|e]; simpl; try reflexivity.
  - destruct (new_SeedKey _ _ _) as [key|e]; [|reflexivity].
    destruct (ecdsaSign key bytes) as [sig|e]; [|reflexivity].
    destruct (signature sig); reflexivity.
  - destruct (Buffer_from (pk !! "330")) as [privateKey|e]; [|reflexivity].
    destruct (new_RawKey privateKey) as [key|e]; [|reflexivity].
    destruct (ecdsaSign key bytes) as [sig|e]; [|reflexivity].
    destruct (signature sig); reflexivity.
Qed.

(** C1. For a seed record with [legacy] set, every operation constructs its
    [SeedKey] with coin type 118 when the requested coin type is 330, and
    with the requested coin type when it is another one: [createSignature]
    and [sign] for the coin type of the chain, [getPubkey] for either of its
    two tags, [signBytes] for the default 330.  What the constructor throws
    is the outcome; otherwise the operation goes on with the key. *)
Theorem legacy_seed_coin_type
    (s : World) (w : Wallet.t) (password seed : string)
    (index : option number) (tx : Tx) (chain address : string)
    (n n' : Network) (info : AccountInfo) (txOptions : CreateTxOptions)
    (signMode : option SignMode) (bytes : Buffer) :
  wallet s = Some w ->
  is_ledger (Some w) = false ->
  is_local (Some w) = true ->
  getDecryptedKey (Wallet.name w) password (storage s) =
    OK (Some (SeedRecord seed true index)) ->
  networks !! chain = Some n ->
  lcd_auth_accountInfo (calls s) address = OK (Some info) ->
  networks !! chainID txOptions = Some n' ->
  let key coin := new_SeedKey (Buffer_from_hex seed) coin (or_zero index) in
  let requested := parseInt (coinType n) in
  let requested' := parseInt (coinType n') in
  (requested = Int 330 ->
   fst (createSignature tx chain address password s) =
   and_then (key (Int 118))
     (fun key => createSignatureAmino key (docOf tx chain info))) /\
  (requested <> Int 330 ->
   fst (createSignature tx chain address password s) =
   and_then (key requested)
     (fun key => createSignatureAmino key (docOf tx chain info))) /\
  (requested' = Int 330 ->
   fst (sign txOptions password signMode s) =
   and_then (key (Int 118))
     (fun key =>
        lcd_wallet_createAndSignTx (calls s) key
          (with_signMode txOptions signMode))) /\
  (requested' <> Int 330 ->
   fst (sign txOptions password signMode s) =
   and_then (key requested')
     (fun key =>
        lcd_wallet_createAndSignTx (calls s) key
          (with_signMode txOptions signMode))) /\
  getPubkey tag330 password s = (and_then (key (Int 118)) public_key_of, s) /\
  getPubkey tag118 password s = (and_then (key (Int 118)) public_key_of, s) /\
  signBytes bytes password s =
    (and_then (key (Int 118)) (fun key => signed_by key bytes), s).
Proof.
  intros Hw Hled Hloc Hkey Hnet Hacc Hnet' key requested requested'.
  rewrite (createSignature_resolved tx chain address password s w n info)
    by assumption.
  rewrite (sign_resolved txOptions password signMode s w n') by assumption.
  rewrite !(getPubkey_resolved _ password s w) by assumption.
  rewrite (signBytes_resolved bytes password s w) by assumption.
  rewrite Hkey. unfold spec_effectiveCoinType. simpl.
  fold requested requested'.
  assert (Hne : forall r, r <> Int 330 -> strict_eq r (Int 330) = false).
  { intros [|z] Hr; simpl; [reflexivity|].
    apply Z.eqb_neq. congruence. }
  split; [|split; [|split; [|split; [|split; [|split]]]]];
    try reflexivity.
  - intros ->. reflexivity.
  - intros Hr. rewrite (Hne _ Hr). reflexivity.
  - intros ->. simpl. unfold key.
    destruct (new_SeedKey _ _ _); reflexivity.
  - intros Hr. rewrite (Hne _ Hr). unfold key.
    destruct (new_SeedKey _ _ _); reflexivity.
Qed.

(** C3. For a raw-key record and the correct password, resolving for a coin
    type whose entry is a private key succeeds and uses the key stored:
    [createSignature], [sign] and [getPubkey] construct [RawKey] from that
    entry and return what signing with it, respectively its public key,
    gives.  For a coin type with no entry they throw [PasswordError]
    "Incorrect password", which is also what they throw when the password
    decrypts nothing. *)
Theorem raw_key_by_coin_type
    (s : World) (w : Wallet.t) (password : string) (pk : gmap string string)
    (tx : Tx) (chain address : string) (n : Network) (info : AccountInfo)
    (txOptions : CreateTxOptions) (signMode : option SignMode)
    (c : CoinTypeTag) :
  wallet s = Some w ->
  is_ledger (Some w) = false ->
  is_local (Some w) = true ->
  getDecryptedKey (Wallet.name w) password (storage s) =
    OK (Some (RawKeyRecord pk)) ->
  networks !! chain = Some n ->
  lcd_auth_accountInfo (calls s) address = OK (Some info) ->
  chainID txOptions = chain ->
  (forall hex, pk !! coinType n = Some hex -> is_private_key hex ->
     let key := RawKey (Buffer_from_hex hex) in
     new_RawKey (Buffer_from_hex hex) = OK key /\
     fst (createSignature tx chain address password s) =
       createSignatureAmino key (docOf tx chain info) /\
     sign txOptions password signMode s =
       (lcd_wallet_createAndSignTx (calls s) key txOptions,
        logged (CreateAndSignTxCall key txOptions) s) /\
     (forall signature,
        createSignatureAmino key (docOf tx chain info) = OK signature ->
        fst (createSignature tx chain address password s) = OK signature) /\
     (forall signedTx,
        lcd_wallet_createAndSignTx (calls s) key txOptions = OK signedTx ->
        fst (sign txOptions password signMode s) = OK signedTx)) /\
  (forall hex, pk !! tag c = Some hex -> is_private_key hex ->
     let key := RawKey (Buffer_from_hex hex) in
     getPubkey c password s = (public_key_of key, s) /\
     (forall p, publicKey key = Some p ->
        getPubkey c password s = (OK (PublicKey_key p), s))) /\
  (pk !! coinType n = None ->
     fst (createSignature tx chain address password s) = incorrect /\
     sign txOptions password signMode s = (incorrect, s)) /\
  (pk !! tag c = None -> getPubkey c password s = (incorrect, s)) /\
  (forall wrong,
     getDecryptedKey (Wallet.name w) wrong (storage s) = OK None ->
     fst (createSignature tx chain address wrong s) = incorrect /\
     sign txOptions wrong signMode s = (incorrect, s) /\
     getPubkey c wrong s = (incorrect, s)).
Proof.
  intros Hw Hled Hloc Hkey Hnet Hacc Hchain.
  assert (Hnet' : networks !! chainID txOptions = Some n) by congruence.
  assert (Hvalid : forall hex, is_private_key hex ->
            truthy (Some hex) = true /\
            new_RawKey (Buffer_from_hex hex) =
              OK (RawKey (Buffer_from_hex hex))).
  { intros hex [Hne Hok]. unfold new_RawKey. rewrite Hok.
    destruct hex; [congruence|]. split; reflexivity. }
  pose proof (createSignature_resolved tx chain address password s w n info
                Hw Hled Hloc Hnet Hacc) as Hcs.
  pose proof (sign_resolved txOptions password signMode s w n
                Hw Hled Hloc Hnet') as Hsg.
  pose proof (getPubkey_resolved c password s w Hw Hled Hloc) as Hpub.
  rewrite Hkey in Hcs, Hsg, Hpub.
  split; [|split; [|split; [|split]]].
  - intros hex Hhex Hprivate key. subst key.
    destruct (Hvalid hex Hprivate) as [Htruthy Hnew].
    rewrite Hcs, Hsg, Hhex, Htruthy. simpl. rewrite Hnew. simpl.
    split; [reflexivity|]. split; [reflexivity|]. split; [reflexivity|].
    split; intros r Hr; rewrite Hr; reflexivity.
  - intros hex Hhex Hprivate key. subst key.
    destruct (Hvalid hex Hprivate) as [Htruthy Hnew].
    rewrite Hpub, Hhex, Htruthy. simpl. rewrite Hnew. simpl.
    split; [reflexivity|]. intros p Hp. unfold public_key_of.
    rewrite Hp. reflexivity.
  - intros Hmiss. rewrite Hcs, Hsg, Hmiss. split; reflexivity.
  - intros Hmiss. rewrite Hpub, Hmiss. reflexivity.
  - intros wrong Hwrong.
    rewrite (createSignature_resolved tx chain address wrong s w n info)
      by assumption.
    rewrite (sign_resolved txOptions wrong signMode s w n) by assumption.
    rewrite (getPubkey_resolved c wrong s w) by assumption.
    rewrite Hwrong. repeat split; reflexivity.
Qed.

(** C9. For a raw-key record [signBytes] goes for the entry under "330"
    without testing that it is there, whatever the record holds besides.
    With an entry, its bytes are handed to [new RawKey]: what the
    constructor throws is thrown, and otherwise [ecdsaSign] of that key
    signs the payload; when it returns a signature the result carries it in
    base64 with its recovery id, when it returns none the error is
    "Signature is undefined".  With no entry the failure is a [TypeError]
    of [Buffer.from], not the [PasswordError] that [getPubkey] throws for
    the same record. *)
Theorem signBytes_raw_key_330
    (bytes : Buffer) (password : string) (s : World) (w : Wallet.t)
    (pk : gmap string string) :
  wallet s = Some w ->
  is_ledger (Some w) = false ->
  is_local (Some w) = true ->
  getDecryptedKey (Wallet.name w) password (storage s) =
    OK (Some (RawKeyRecord pk)) ->
  (forall hex, pk !! "330" = Some hex ->
     let key := RawKey (Buffer_from_hex hex) in
     (forall e, RawKey_refuses (Buffer_from_hex hex) = Some e ->
        signBytes bytes password s = (Throw e, s)) /\
     (RawKey_refuses (Buffer_from_hex hex) = None ->
        (forall e, ecdsaSign key bytes = Throw e ->
           signBytes bytes password s = (Throw e, s)) /\
        (forall sig, ecdsaSign key bytes = OK sig ->
           signature sig = None ->
           signBytes bytes password s =
             (Throw (Error "Signature is undefined"), s)) /\
        (forall sig b, ecdsaSign key bytes = OK sig ->
           signature sig = Some b ->
           signBytes bytes password s =
             (OK {| sb_recid := recid sig;
                    sb_signature := toString_base64 b;
                    sb_public_key :=
                      option_map toAmino_value (publicKey key) |}, s)))) /\
  (pk !! "330" = None ->
     (exists message,
        signBytes bytes password s = (Throw (TypeError message), s)) /\
     (forall message,
        fst (signBytes bytes password s) <> Throw (PasswordError message)) /\
     getPubkey tag330 password s = (incorrect, s)).
Proof.
  intros Hw Hled Hloc Hkey.
  rewrite (signBytes_resolved bytes password s w) by assumption.
  rewrite (getPubkey_resolved tag330 password s w) by assumption.
  rewrite Hkey. unfold new_RawKey, signed_by. simpl. split.
  - intros hex ->. simpl. split.
    + intros e ->. reflexivity.
    + intros ->. simpl. split; [|split].
      * intros e ->. reflexivity.
      * intros sig -> ->. reflexivity.
      * intros sig b -> ->. reflexivity.
  - intros ->. simpl. split; [eauto|]. split; [discriminate|reflexivity].
Qed.

(** *** Sign modes *)

Lemma sign_ledger_legacy_amino (txOptions : CreateTxOptions)
    (password : string) (signMode : option SignMode) (s : World)
    (w : Wallet.t) (n : Network) (key : Key) :
  wallet s = Some w ->
  is_ledger (Some w) = true ->
  networks !! chainID txOptions = Some n ->
  LedgerKey_create
    (if Wallet.bluetooth w then Some createBleTransport else None)
    (Wallet.index w) (Number (coinType n)) = OK key ->
  let options := with_signMode txOptions (Some SIGN_MODE_LEGACY_AMINO_JSON) in
  sign txOptions password signMode s =
  (lcd_wallet_createAndSignTx (calls s) key options,
   logged (CreateAndSignTxCall key options) s).
Proof.
  intros Hw Hled Hnet Hcreate options. unfold sign, getLedgerKey, logged.
  destruct s as [wl st cs]; simpl in *; subst wl.
  run. rewrite Hled, Hnet. simpl. rewrite Hled. simpl. rewrite Hcreate.
  reflexivity.
Qed.

Lemma sign_seed_passes_signMode (txOptions : CreateTxOptions)
    (password : string) (signMode : option SignMode) (s : World)
    (w : Wallet.t) (n : Network) (seed : string) (legacy : bool)
    (index : option number) :
  wallet s = Some w ->
  is_ledger (Some w) = false ->
  is_local (Some w) = true ->
  networks !! chainID txOptions = Some n ->
  getDecryptedKey (Wallet.name w) password (storage s) =
    OK (Some (SeedRecord seed legacy index)) ->
  sign txOptions password signMode s =
  match
    new_SeedKey (Buffer_from_hex seed)
      (spec_effectiveCoinType legacy (parseInt (coinType n))) (or_zero index)
  with
  | Throw e => (Throw e, s)
  | OK key =>
      (lcd_wallet_createAndSignTx (calls s) key
         (with_signMode txOptions signMode),
       logged (CreateAndSignTxCall key (with_signMode txOptions signMode)) s)
  end.
Proof.
  intros Hw Hled Hloc Hnet Hkey.
  rewrite (sign_resolved txOptions password signMode s w n) by assumption.
  rewrite Hkey. reflexivity.
Qed.

(** C6, where the code departs from it. For a raw-key record [sign] hands
    [txOptions] to the LCD wallet as they came: the [signMode] argument is
    not put into them, so two calls that differ only in it are the same
    call.  The request is made with the key constructed from the entry; when
    [new RawKey] throws, that is thrown and nothing is requested. *)
Theorem sign_raw_ignores_signMode (txOptions : CreateTxOptions)
    (password : string) (s : World) (w : Wallet.t) (n : Network)
    (pk : gmap string string) (hex : string) (mode mode' : option SignMode) :
  wallet s = Some w ->
  is_ledger (Some w) = false ->
  is_local (Some w) = true ->
  networks !! chainID txOptions = Some n ->
  getDecryptedKey (Wallet.name w) password (storage s) =
    OK (Some (RawKeyRecord pk)) ->
  pk !! coinType n = Some hex ->
  hex <> EmptyString ->
  let key := RawKey (Buffer_from_hex hex) in
  (RawKey_refuses (Buffer_from_hex hex) = None ->
   sign txOptions password mode s =
     (lcd_wallet_createAndSignTx (calls s) key txOptions,
      logged (CreateAndSignTxCall key txOptions) s)) /\
  (forall e, RawKey_refuses (Buffer_from_hex hex) = Some e ->
   sign txOptions password mode s = (Throw e, s)) /\
  sign txOptions password mode s = sign txOptions password mode' s.
Proof.
  intros Hw Hled Hloc Hnet Hkey Hhex Hne key.
  rewrite !(sign_resolved txOptions password _ s w n) by assumption.
  rewrite Hkey, Hhex. destruct hex; [congruence|]. simpl.
  unfold new_RawKey. split; [|split].
  - intros ->. reflexivity.
  - intros e ->. reflexivity.
  - reflexivity.
Qed.

(** *** Broadcast *)

Lemma broadcasts_app (l : list Call) (c : Call) :
  broadcasts (l ++ [c]) = (broadcasts l + (if is_broadcast c then 1 else 0))%nat.
Proof.
  unfold broadcasts. rewrite List.filter_app, List.length_app. simpl.
  destruct (is_broadcast c); reflexivity.
Qed.

Lemma frame_refl (s : World) : frame s s.
Proof. repeat split. Qed.

Lemma quiet_ret {A : Type} (a : A) : quiet (ret a).
Proof. intros s. apply frame_refl. Qed.

Lemma quiet_throw {A : Type} (e : error) : quiet (@throw _ A e).
Proof. intros s. apply frame_refl. Qed.

Lemma quiet_lift {A : Type} (r : result A) : quiet (lift r).
Proof. intros s. apply frame_refl. Qed.

Lemma quiet_read {A : Type} (f : Storage -> result A) : quiet (read f).
Proof. intros s. apply frame_refl. Qed.

Lemma quiet_useWallet : quiet useWallet.
Proof. intros s. apply frame_refl. Qed.

Lemma quiet_request {A : Type} (c : Call) (answer : list Call -> result A) :
  is_broadcast c = false -> quiet (request c answer).
Proof.
  intros Hc s. unfold frame, request. simpl.
  rewrite broadcasts_app, Hc. auto with arith.
Qed.

Lemma quiet_bind {A B : Type} (m : M A) (k : A -> M B) :
  quiet m -> (forall a, quiet (k a)) -> quiet (bind m k).
Proof.
  intros Hm Hk s. unfold bind. specialize (Hm s).
  destruct (m s) as [[a|e] s']; simpl in *; [|exact Hm].
  specialize (Hk a s'). unfold frame in *.
  destruct Hm as (<- & <- & <-). exact Hk.
Qed.

Ltac quiet_step :=
  first
    [ apply quiet_ret | apply quiet_throw | apply quiet_lift
    | apply quiet_read | apply quiet_useWallet
    | apply quiet_request; reflexivity
    | apply quiet_bind; [|intro]
    | match goal with
      | |- quiet (match ?x with _ => _ end) => destruct x
      end ].

(** [sign] sends no broadcast and leaves wallet and key store alone. *)
Lemma sign_frame (txOptions : CreateTxOptions) (password : string)
    (signMode : option SignMode) :
  quiet (sign txOptions password signMode).
Proof.
  unfold sign, getLedgerKey, getKey, getConnectedWallet, network_coinType.
  repeat quiet_step.
Qed.

(** C7. [post] throws "Wallet is not defined" when no wallet is connected
    and then sends nothing.  Otherwise it signs; a failure of [sign] is the
    failure of [post] and nothing is broadcast; a signed transaction is
    handed to [broadcastSync] once, the only request added, and [post]
    throws an [Error] with the result's [raw_log] when [isTxError] holds of
    the result, and returns the result itself when it does not. *)
Theorem post_broadcasts_once (txOptions : CreateTxOptions)
    (password : string) (signMode : option SignMode) (s : World) :
  (wallet s = None ->
   post txOptions password signMode s =
   (Throw (Error "Wallet is not defined"), s)) /\
  (forall w e s1,
     wallet s = Some w ->
     sign txOptions password signMode s = (Throw e, s1) ->
     post txOptions password signMode s = (Throw e, s1) /\
     broadcasts (calls s1) = broadcasts (calls s)) /\
  (forall w signedTx s1,
     wallet s = Some w ->
     sign txOptions password signMode s = (OK signedTx, s1) ->
     let submitted := BroadcastSyncCall signedTx (chainID txOptions) in
     snd (post txOptions password signMode s) = logged submitted s1 /\
     broadcasts (calls (snd (post txOptions password signMode s))) =
       S (broadcasts (calls s)) /\
     fst (post txOptions password signMode s) =
       match lcd_tx_broadcastSync (calls s1) signedTx (chainID txOptions) with
       | OK result =>
           if isTxError result then Throw (Error (raw_log result))
           else OK result
       | Throw e => Throw e
       end).
Proof.
  pose proof (sign_frame txOptions password signMode s) as Hframe.
  unfold frame in Hframe. unfold post, logged. plumbing.
  split; [|split].
  - intros ->. reflexivity.
  - intros w e s1 Hw Hsign. rewrite Hw, Hsign in *. simpl in *.
    split; [reflexivity|]. apply Hframe.
  - intros w signedTx s1 Hw Hsign. rewrite Hw, Hsign in *.
    simpl in Hframe. destruct Hframe as (_ & _ & Hb).
    destruct (lcd_tx_broadcastSync (calls s1) signedTx (chainID txOptions))
      as [result|e]; [destruct (isTxError result)|]; simpl;
      rewrite broadcasts_app, Hb; simpl;
      (split; [reflexivity|split; [apply Nat.add_1_r|reflexivity]]).
Qed.

(** *** Public keys *)

(** C8. For a connected wallet that is not a hardware wallet, [getPubkey]
    is a function of the connected wallet, the requested coin type, the
    password and what the key store decrypts for them: two worlds that agree
    on these give the same result, it leaves the world as it found it, and
    calling it again gives the same result again. *)
Theorem getPubkey_deterministic (c : CoinTypeTag) (password : string)
    (s1 s2 : World) (w : Wallet.t) :
  wallet s1 = Some w ->
  wallet s2 = Some w ->
  is_ledger (Some w) = false ->
  getDecryptedKey (Wallet.name w) password (storage s1) =
  getDecryptedKey (Wallet.name w) password (storage s2) ->
  fst (getPubkey c password s1) = fst (getPubkey c password s2) /\
  snd (getPubkey c password s1) = s1 /\
  fst (getPubkey c password (snd (getPubkey c password s1))) =
  fst (getPubkey c password s1).
Proof.
  intros Hw1 Hw2 Hled Hkey.
  set (f := fun r : result (option DecryptedKey) =>
    if is_local (Some w)
    then
      match r with
      | Throw e => Throw e
      | OK None => incorrect
      | OK (Some (SeedRecord seed legacy index)) =>
          and_then
            (new_SeedKey (Buffer_from_hex seed)
               (if legacy then Int 118 else parseInt (tag c))
               (or_zero index))
            public_key_of
      | OK (Some (RawKeyRecord pk)) =>
          if truthy (pk !! tag c)
          then and_then
                 (new_RawKey
                    (Buffer_from_hex (nullish (pk !! tag c) EmptyString)))
                 public_key_of
          else incorrect
      end
    else Throw (Error "Wallet is not defined")).
  assert (Hsame : forall s, wallet s = Some w ->
            getPubkey c password s =
            (f (getDecryptedKey (Wallet.name w) password (storage s)), s)).
  { intros s Hw. unfold f. destruct (is_local (Some w)) eqn:Hloc.
    - apply getPubkey_resolved; assumption.
    - unfold getPubkey. destruct s as [wl st cs]; simpl in *; subst wl.
      run. rewrite Hled. simpl. rewrite Hloc. reflexivity. }
  rewrite (Hsame s1 Hw1), (Hsame s2 Hw2). simpl.
  rewrite (Hsame s1 Hw1). simpl. rewrite Hkey.
  repeat split.
Qed.

(** *** Beyond the claims: the session *)

Context {X : ExportEnv}.

Lemma disconnect_eq (s : World) :
  disconnect s =
  (OK tt,
   {| wallet := None; storage := clearWallet (storage s); calls := calls s |}).
Proof. reflexivity. Qed.

(** X1. [connect] either fails and leaves the world as it was, or connects a
    wallet whose lock flag is not set, persists that same wallet with
    [storeWallet], and sends nothing. *)
Theorem connect_outcome (name : string) (s : World) :
  match connect name s with
  | (OK _, s') =>
      exists w, wallet s' = Some w /\ Wallet.lock w = false /\
        storage s' = storeWallet w (storage s) /\ calls s' = calls s
  | (Throw _, s') => s' = s
  end.
Proof.
  unfold connect. plumbing.
  destruct (getStoredWallet name (storage s)) as [stored|e]; [|reflexivity].
  destruct (Wallet.address stored) as [a|];
    destruct (Wallet.lock stored) eqn:Hlock; try reflexivity.
  - destruct (is_multisig (Some stored)); simpl; eauto.
  - simpl. eauto.
Qed.

(** X2. For an unlocked stored record that has an [address], [connect] does
    not connect the record but a descriptor built anew: it carries the name
    that was asked for, address words for coin type "330" only, taken from
    the address, and the multisig flag iff [is.multisig] holds of the
    record; address, public keys and index of the record are not carried
    over. *)
Theorem connect_legacy_record (name : string) (s : World)
    (stored : Wallet.t) (a : string) :
  getStoredWallet name (storage s) = OK stored ->
  Wallet.address stored = Some a ->
  Wallet.lock stored = false ->
  exists w,
    connect name s =
      (OK tt,
       {| wallet := Some w; storage := storeWallet w (storage s);
          calls := calls s |}) /\
    Wallet.name w = name /\
    Wallet.words w !! "330" = Some (wordsFromAddress a) /\
    (forall t : string, t <> "330" -> Wallet.words w !! t = None) /\
    Wallet.multisig w = is_multisig (Some stored) /\
    Wallet.address w = None /\ Wallet.pubkey w = None /\
    Wallet.index w = None /\ Wallet.ledger w = false.
Proof.
  intros Hget Haddr Hlock. unfold connect. plumbing.
  rewrite Hget, Haddr, Hlock.
  destruct (is_multisig (Some stored)); simpl;
    eexists; (split; [reflexivity|]); simpl;
    (repeat split; try apply lookup_singleton_eq);
    intros t Ht; apply lookup_singleton_ne; congruence.
Qed.

(** X3. [lock] either locks and disconnects, or changes nothing.  It
    succeeds only for a connected wallet that passes [is.local] and whose
    record [lockWallet] could lock; the session is then disconnected and the
    persisted wallet cleared.  When it throws, because no local wallet is
    connected or because [lockWallet] threw, the wallet stays connected and
    the key store is as before. *)
Theorem lock_outcome (s : World) :
  match lock s with
  | (OK _, s') =>
      exists w st,
        wallet s = Some w /\ is_local (Some w) = true /\
        lockWallet (Wallet.name w) (storage s) = OK st /\
        s' = {| wallet := None; storage := clearWallet st; calls := calls s |}
  | (Throw e, s') =>
      s' = s /\
      (e = Error "Wallet is not defined" \/
       exists w, wallet s = Some w /\
         lockWallet (Wallet.name w) (storage s) = Throw e)
  end.
Proof.
  unfold lock, bind. rewrite getConnectedWallet_eq.
  destruct (wallet s) as [w|] eqn:Hw; [|auto].
  destruct (is_local (Some w)) eqn:Hloc; [|auto].
  unfold write_try.
  destruct (lockWallet (Wallet.name w) (storage s)) as [st|e] eqn:Hlk.
  - rewrite disconnect_eq. simpl. exists w, st. auto.
  - split; [reflexivity|]. right. eauto.
Qed.

(** X4. Locking the connected local wallet and connecting it again: when
    the key store, once locked, reports the record with its lock flag set,
    [connect] throws "Wallet is locked" and the session stays disconnected
    with the persisted wallet cleared. *)
Theorem lock_then_connect (s : World) (w w' : Wallet.t) (st : Storage) :
  wallet s = Some w ->
  is_local (Some w) = true ->
  lockWallet (Wallet.name w) (storage s) = OK st ->
  getStoredWallet (Wallet.name w) (clearWallet st) = OK w' ->
  Wallet.lock w' = true ->
  bind lock (fun _ => connect (Wallet.name w)) s =
  (Throw (Error "Wallet is locked"),
   {| wallet := None; storage := clearWallet st; calls := calls s |}).
Proof.
  intros Hw Hloc Hlk Hget Hlock.
  unfold bind at 1. unfold lock, bind. rewrite getConnectedWallet_eq, Hw, Hloc.
  unfold write_try. rewrite Hlk, disconnect_eq.
  unfold connect. plumbing. simpl. rewrite Hget.
  destruct (Wallet.address w'); rewrite Hlock; reflexivity.
Qed.

(** X5. With no wallet connected, as after [disconnect], [createSignature],
    [getPubkey], [sign], [signBytes], [post], [create],
    [encodeEncryptedWallet] and [lock] all throw "Wallet is not defined" and
    leave the world as it was: no request is sent and the key store is not
    written. *)
Theorem no_wallet_no_operation (s : World) (tx : Tx)
    (chain address password : string) (c : CoinTypeTag)
    (txOptions : CreateTxOptions) (signMode : option SignMode)
    (bytes : Buffer) :
  wallet s = None ->
  let refused {A : Type} : result A * World :=
    (Throw (Error "Wallet is not defined"), s) in
  createSignature tx chain address password s = refused /\
  getPubkey c password s = refused /\
  sign txOptions password signMode s = refused /\
  signBytes bytes password s = refused /\
  post txOptions password signMode s = refused /\
  create txOptions s = refused /\
  encodeEncryptedWallet password s = refused /\
  lock s = refused.
Proof.
  intros Hw refused. subst refused.
  unfold createSignature, getPubkey, sign, signBytes, post, create,
    encodeEncryptedWallet, lock, bind.
  rewrite getConnectedWallet_eq. unfold useWallet, throw. rewrite Hw.
  repeat split.
Qed.

(** *** Beyond the claims: what is sent, and when *)

Lemma silent_ret {A : Type} (a : A) : silent (ret a).
Proof. intros s. reflexivity. Qed.

Lemma silent_throw {A : Type} (e : error) : silent (@throw _ A e).
Proof. intros s. reflexivity. Qed.

Lemma silent_lift {A : Type} (r : result A) : silent (lift r).
Proof. intros s. reflexivity. Qed.

Lemma silent_read {A : Type} (f : Storage -> result A) : silent (read f).
Proof. intros s. reflexivity. Qed.

Lemma silent_useWallet : silent useWallet.
Proof. intros s. reflexivity. Qed.

Lemma silent_bind {A B : Type} (m : M A) (k : A -> M B) :
  silent m -> (forall a, silent (k a)) -> silent (bind m k).
Proof.
  intros Hm Hk s. unfold bind. specialize (Hm s).
  destruct (m s) as [[a|e] s']; simpl in *; subst s'; [apply Hk|reflexivity].
Qed.

Lemma silent_try_catch {A : Type} (m : M A) (h : error -> M A) :
  silent m -> (forall e, silent (h e)) -> silent (try_catch m h).
Proof.
  intros Hm Hh s. unfold try_catch. specialize (Hm s).
  destruct (m s) as [[a|e] s']; simpl in *; subst s'; [reflexivity|apply Hh].
Qed.

Ltac silent_step :=
  first
    [ apply silent_ret | apply silent_throw | apply silent_lift
    | apply silent_read | apply silent_useWallet
    | apply silent_bind; [|intro]
    | apply silent_try_catch; [|intro]
    | match goal with
      | |- silent (match ?x with _ => _ end) => destruct x
      end ].

Ltac silence :=
  unfold getLedgerKey, getKey, getConnectedWallet, network_coinType;
  cbv zeta; repeat silent_step.

Lemma silent_getKey (password : string) : silent (getKey password).
Proof. silence. Qed.

Lemma silent_getLedgerKey (coinType : string) : silent (getLedgerKey coinType).
Proof. silence. Qed.

Lemma silent_network_coinType (chain : string) :
  silent (network_coinType chain).
Proof. silence. Qed.

(** After a request, a silent rest leaves exactly that request behind. *)
Lemma snd_bind_request {A B : Type} (c : Call)
    (answer : list Call -> result A) (k : A -> M B) (s : World) :
  (forall a, silent (k a)) ->
  snd (bind (request c answer) k s) = logged c s.
Proof.
  intros Hk. unfold bind, request, logged.
  destruct (answer (calls s)) as [a|e]; [apply Hk|reflexivity].
Qed.

Lemma stl_throw (txOptions : CreateTxOptions) (e : error) :
  signs_through_lcd txOptions (throw e).
Proof. intros s. left. eauto. Qed.

Lemma stl_request (txOptions options : CreateTxOptions) (key : Key) :
  chainID options = chainID txOptions ->
  msgs options = msgs txOptions ->
  signs_through_lcd txOptions
    (request (CreateAndSignTxCall key options)
       (fun past => lcd_wallet_createAndSignTx past key options)).
Proof. intros Hc Hm s. right. exists key, options. auto. Qed.

Lemma stl_bind {A : Type} (txOptions : CreateTxOptions) (m : M A)
    (k : A -> M Tx) :
  silent m -> (forall a, signs_through_lcd txOptions (k a)) ->
  signs_through_lcd txOptions (bind m k).
Proof.
  intros Hm Hk s. unfold bind. specialize (Hm s).
  destruct (m s) as [[a|e] s']; simpl in *; subst s'; [apply Hk|].
  left. eauto.
Qed.

Ltac stl_step :=
  first
    [ apply stl_throw
    | apply stl_request; reflexivity
    | apply stl_bind; [silence|intro]
    | match goal with
      | |- signs_through_lcd _ (match ?x with _ => _ end) => destruct x
      end ].

Lemma sign_through_lcd (txOptions : CreateTxOptions) (password : string)
    (signMode : option SignMode) :
  signs_through_lcd txOptions (sign txOptions password signMode).
Proof. unfold sign. cbv zeta. repeat stl_step. Qed.

(** X6. Whatever they return, [getPubkey], [signBytes], [validatePassword],
    [encodeEncryptedWallet] and [getLedgerKey] leave the world as it was:
    they do not connect or disconnect, write nothing to the key store and
    send no request. *)
Theorem local_operations_are_silent (s : World) (c : CoinTypeTag)
    (password coinType : string) (bytes : Buffer) :
  snd (getPubkey c password s) = s /\
  snd (signBytes bytes password s) = s /\
  snd (validatePassword password s) = s /\
  snd (encodeEncryptedWallet password s) = s /\
  snd (getLedgerKey coinType s) = s.
Proof.
  assert (H1 : silent (getPubkey c password))
    by (unfold getPubkey; silence).
  assert (H2 : silent (signBytes bytes password))
    by (unfold signBytes; silence).
  assert (H3 : silent (validatePassword password))
    by (unfold validatePassword; silence).
  assert (H4 : silent (encodeEncryptedWallet password))
    by (unfold encodeEncryptedWallet; silence).
  pose proof (silent_getLedgerKey coinType) as H5.
  repeat split; [apply H1|apply H2|apply H3|apply H4|apply H5].
Qed.

(** X7. What [createSignature] and [sign] send.  With a wallet connected,
    [createSignature] leaves exactly one request behind, the account query,
    whatever happens after it; wallet and key store are untouched.  [sign]
    either throws having changed nothing, or has made the single request
    [createAndSignTx], for options with the chain and messages of
    [txOptions], and returns its answer. *)
Theorem signing_requests (tx : Tx) (chain address password : string)
    (txOptions : CreateTxOptions) (signMode : option SignMode) (s : World) :
  (forall w, wallet s = Some w ->
     snd (createSignature tx chain address password s) =
     logged (AccountInfoCall address) s) /\
  ((exists e, sign txOptions password signMode s = (Throw e, s)) \/
   (exists key options,
      sign txOptions password signMode s =
        (lcd_wallet_createAndSignTx (calls s) key options,
         logged (CreateAndSignTxCall key options) s) /\
      chainID options = chainID txOptions /\
      msgs options = msgs txOptions)).
Proof.
  split; [|apply sign_through_lcd].
  intros w Hw. unfold createSignature. unfold bind at 1, useWallet.
  rewrite Hw. apply snd_bind_request. intros info. silence.
Qed.

(** X8. [post] broadcasts only what the LCD wallet has just signed, and for
    the chain of [txOptions].  Either it throws having sent nothing; or
    [createAndSignTx] was the only request and its rejection is what [post]
    throws; or the transaction it answered is the one handed to
    [broadcastSync], as the second and last request. *)
Theorem post_sends_what_was_signed (txOptions : CreateTxOptions)
    (password : string) (signMode : option SignMode) (s : World) :
  (exists e, post txOptions password signMode s = (Throw e, s)) \/
  (exists key options e,
     lcd_wallet_createAndSignTx (calls s) key options = Throw e /\
     post txOptions password signMode s =
       (Throw e, logged (CreateAndSignTxCall key options) s)) \/
  (exists key options signedTx,
     lcd_wallet_createAndSignTx (calls s) key options = OK signedTx /\
     snd (post txOptions password signMode s) =
       logged (BroadcastSyncCall signedTx (chainID txOptions))
         (logged (CreateAndSignTxCall key options) s)).
Proof.
  assert (Hpost :
    post txOptions password signMode s =
    match wallet s with
    | None => (Throw (Error "Wallet is not defined"), s)
    | Some _ =>
        match sign txOptions password signMode s with
        | (OK signedTx, s') =>
            bind
              (request (BroadcastSyncCall signedTx (chainID txOptions))
                 (fun past =>
                    lcd_tx_broadcastSync past signedTx (chainID txOptions)))
              (fun result =>
                 if isTxError result then throw (Error (raw_log result))
                 else ret result) s'
        | (Throw e, s') => (Throw e, s')
        end
    end).
  { unfold post. unfold bind at 1, useWallet.
    destruct (wallet s); reflexivity. }
  rewrite Hpost. clear Hpost.
  destruct (wallet s) as [w|]; [|left; eexists; reflexivity].
  destruct (sign_through_lcd txOptions password signMode s)
    as [[e ->] | (key & options & -> & _ & _)].
  - left. eauto.
  - right.
    destruct (lcd_wallet_createAndSignTx (calls s) key options)
      as [signedTx|e] eqn:Hsigned.
    + right. exists key, options, signedTx. split; [exact Hsigned|].
      apply snd_bind_request. intros r. silence.
    + left. exists key, options, e. split; [exact Hsigned|reflexivity].
Qed.

(** *** Beyond the claims: hardware wallets *)

Lemma getLedgerKey_ledger (coinType : string) (s : World) (w : Wallet.t) :
  wallet s = Some w ->
  is_ledger (Some w) = true ->
  getLedgerKey coinType s =
  (LedgerKey_create (transport_of w) (Wallet.index w) (Number coinType), s).
Proof.
  intros Hw Hled. unfold getLedgerKey, transport_of. plumbing.
  rewrite Hw, Hled. reflexivity.
Qed.

Lemma sign_ledger_eq (txOptions : CreateTxOptions) (password : string)
    (signMode : option SignMode) (s : World) (w : Wallet.t) :
  wallet s = Some w ->
  is_ledger (Some w) = true ->
  sign txOptions password signMode s =
  match networks !! chainID txOptions with
  | None => (unknown_chain, s)
  | Some n =>
      match
        LedgerKey_create (transport_of w) (Wallet.index w)
          (Number (coinType n))
      with
      | Throw e => (Throw e, s)
      | OK key =>
          let options :=
            with_signMode txOptions (Some SIGN_MODE_LEGACY_AMINO_JSON) in
          (lcd_wallet_createAndSignTx (calls s) key options,
           logged (CreateAndSignTxCall key options) s)
      end
  end.
Proof.
  intros Hw Hled. unfold sign. unfold bind at 1, useWallet. rewrite Hw, Hled.
  unfold network_coinType, unknown_chain.
  destruct (networks !! chainID txOptions) as [n|]; [|reflexivity].
  unfold bind at 1, ret. unfold bind.
  rewrite (getLedgerKey_ledger _ s w Hw Hled).
  destruct (LedgerKey_create _ _ _); reflexivity.
Qed.

Lemma createSignature_ledger_eq (tx : Tx) (chain address password : string)
    (s : World) (w : Wallet.t) :
  wallet s = Some w ->
  is_ledger (Some w) = true ->
  createSignature tx chain address password s =
  (match lcd_auth_accountInfo (calls s) address with
   | Throw e => Throw e
   | OK None => Throw (Error "Couldn't retrieve account info")
   | OK (Some info) =>
       match networks !! chain with
       | None => unknown_chain
       | Some n =>
           match
             LedgerKey_create (transport_of w) (Wallet.index w)
               (Number (coinType n))
           with
           | Throw e => Throw e
           | OK key => createSignatureAmino key (docOf tx chain info)
           end
       end
   end, logged (AccountInfoCall address) s).
Proof.
  intros Hw Hled. unfold createSignature, unknown_chain, logged, docOf.
  destruct s as [wl st cs]; simpl in *; subst wl.
  unfold getLedgerKey, transport_of. run. rewrite Hled.
  destruct (lcd_auth_accountInfo cs address) as [[info|]|e]; try reflexivity.
  destruct (networks !! chain) as [n|]; simpl; [|reflexivity].
  rewrite Hled. simpl.
  destruct (LedgerKey_create _ _ _); reflexivity.
Qed.

Lemma getPubkey_ledger_eq (c : CoinTypeTag) (password : string) (s : World)
    (w : Wallet.t) :
  wallet s = Some w ->
  is_ledger (Some w) = true ->
  getPubkey c password s =
  match
    LedgerKey_create (transport_of w) (Wallet.index w) (Number (tag c))
  with
  | Throw e => (Throw e, s)
  | OK key => (public_key_of key, s)
  end.
Proof.
  intros Hw Hled. unfold getPubkey, public_key_of.
  unfold bind at 1, useWallet.
  rewrite Hw, Hled. unfold bind.
  rewrite (getLedgerKey_ledger _ s w Hw Hled).
  destruct (LedgerKey_create _ _ _) as [key|e]; [|reflexivity].
  destruct (publicKey key); reflexivity.
Qed.

Lemma fst_post (txOptions : CreateTxOptions) (password : string)
    (signMode : option SignMode) (s : World) (w : Wallet.t) :
  wallet s = Some w ->
  fst (post txOptions password signMode s) =
  match sign txOptions password signMode s with
  | (OK signedTx, s') =>
      match lcd_tx_broadcastSync (calls s') signedTx (chainID txOptions) with
      | OK result =>
          if isTxError result then Throw (Error (raw_log result))
          else OK result
      | Throw e => Throw e
      end
  | (Throw e, _) => Throw e
  end.
Proof.
  intros Hw. unfold post. plumbing. rewrite Hw.
  destruct (sign txOptions password signMode s) as [[signedTx|e] s'];
    [|reflexivity].
  destruct (lcd_tx_broadcastSync _ _ _) as [r|e]; [|reflexivity].
  destruct (isTxError r); reflexivity.
Qed.

(** X9. A hardware wallet needs no password.  With a wallet connected of
    which [is.ledger] holds, [getPubkey], [createSignature], [sign] and
    [post] return the same in two worlds that agree on the wallet and on the
    requests made so far, whatever the two passwords and whatever the key
    store holds in either; [sign] and [post] return the same for any two
    sign modes as well. *)
Theorem hardware_needs_no_password (s1 s2 : World) (w : Wallet.t)
    (c : CoinTypeTag) (tx : Tx) (chain address : string)
    (txOptions : CreateTxOptions) (p1 p2 : string)
    (m1 m2 : option SignMode) :
  wallet s1 = Some w ->
  wallet s2 = Some w ->
  calls s1 = calls s2 ->
  is_ledger (Some w) = true ->
  fst (getPubkey c p1 s1) = fst (getPubkey c p2 s2) /\
  fst (createSignature tx chain address p1 s1) =
    fst (createSignature tx chain address p2 s2) /\
  fst (sign txOptions p1 m1 s1) = fst (sign txOptions p2 m2 s2) /\
  fst (post txOptions p1 m1 s1) = fst (post txOptions p2 m2 s2).
Proof.
  intros Hw1 Hw2 Hcalls Hled.
  rewrite (fst_post _ _ _ s1 w Hw1), (fst_post _ _ _ s2 w Hw2).
  rewrite (getPubkey_ledger_eq c p1 s1 w Hw1 Hled),
    (getPubkey_ledger_eq c p2 s2 w Hw2 Hled).
  rewrite (createSignature_ledger_eq tx chain address p1 s1 w Hw1 Hled),
    (createSignature_ledger_eq tx chain address p2 s2 w Hw2 Hled).
  rewrite (sign_ledger_eq txOptions p1 m1 s1 w Hw1 Hled),
    (sign_ledger_eq txOptions p2 m2 s2 w Hw2 Hled).
  simpl. rewrite Hcalls.
  repeat split.
  - destruct (LedgerKey_create _ _ _) as [key|e]; reflexivity.
  - destruct (networks !! chainID txOptions) as [n|]; [|reflexivity].
    destruct (LedgerKey_create _ _ _); reflexivity.
  - destruct (networks !! chainID txOptions) as [n|]; [|reflexivity].
    destruct (LedgerKey_create _ _ _); [|reflexivity].
    simpl. rewrite Hcalls. reflexivity.
Qed.

(** *** Beyond the claims: wallets that cannot sign, keys that do not open *)

(** X10. A connected wallet that is neither a hardware wallet nor local
    cannot sign: [getPubkey], [sign], [signBytes], [post],
    [encodeEncryptedWallet] and [lock] throw "Wallet is not defined" and
    change nothing, the key store is not read; [createSignature] throws the
    same once the account query has answered. *)
Theorem not_local_cannot_sign (s : World) (w : Wallet.t) (tx : Tx)
    (chain address password : string) (c : CoinTypeTag)
    (txOptions : CreateTxOptions) (signMode : option SignMode)
    (bytes : Buffer) (info : AccountInfo) :
  wallet s = Some w ->
  is_ledger (Some w) = false ->
  is_local (Some w) = false ->
  lcd_auth_accountInfo (calls s) address = OK (Some info) ->
  let refused {A : Type} : result A := Throw (Error "Wallet is not defined") in
  getPubkey c password s = (refused, s) /\
  sign txOptions password signMode s = (refused, s) /\
  signBytes bytes password s = (refused, s) /\
  post txOptions password signMode s = (refused, s) /\
  encodeEncryptedWallet password s = (refused, s) /\
  lock s = (refused, s) /\
  createSignature tx chain address password s =
    (refused, logged (AccountInfoCall address) s).
Proof.
  intros Hw Hled Hloc Hacc refused. subst refused.
  unfold getPubkey, signBytes, post, sign, encodeEncryptedWallet, lock,
    createSignature, logged.
  destruct s as [wl st cs]; simpl in *; subst wl.
  run. rewrite Hacc, Hled. simpl. rewrite Hloc. simpl.
  repeat split.
Qed.

(** X11. For a connected local wallet, a password that opens nothing stops
    every operation before anything is sent.  When [getDecryptedKey] returns
    [undefined], [getPubkey], [sign], [signBytes] and [post] throw
    [PasswordError] "Incorrect password" and [encodeEncryptedWallet] throws
    [PasswordError] "Key do not exist"; when [getDecryptedKey] throws, all
    five throw what it threw.  The world is unchanged in every case, even
    for a chain that the registry does not have. *)
Theorem key_that_does_not_open (s : World) (w : Wallet.t) (password : string)
    (c : CoinTypeTag) (txOptions : CreateTxOptions)
    (signMode : option SignMode) (bytes : Buffer) :
  wallet s = Some w ->
  is_ledger (Some w) = false ->
  is_local (Some w) = true ->
  forall failure : error,
    (getDecryptedKey (Wallet.name w) password (storage s) = OK None /\
     failure = PasswordError "Incorrect password") \/
    getDecryptedKey (Wallet.name w) password (storage s) = Throw failure ->
  getPubkey c password s = (Throw failure, s) /\
  sign txOptions password signMode s = (Throw failure, s) /\
  signBytes bytes password s = (Throw failure, s) /\
  post txOptions password signMode s = (Throw failure, s) /\
  encodeEncryptedWallet password s =
    (Throw
       (match getDecryptedKey (Wallet.name w) password (storage s) with
        | Throw e => e
        | OK _ => PasswordError "Key do not exist"
        end), s).
Proof.
  intros Hw Hled Hloc failure Hkey.
  unfold getPubkey, signBytes, post, sign, encodeEncryptedWallet.
  destruct s as [wl st cs]; simpl in *; subst wl.
  run. rewrite Hled. simpl. rewrite Hloc. simpl. rewrite ?Hloc. simpl.
  destruct Hkey as [[-> ->] | ->]; simpl; repeat split.
Qed.

(** *** Beyond the claims: chains, accounts and coin types *)

(** X12. A chain that the registry does not have.  [create] throws a
    [TypeError] for it, the optional chaining on the prefix notwithstanding;
    so do [sign] and [post], for a hardware wallet and for a local wallet
    whose key opened, and nothing is sent; [createSignature] throws it after
    the account query. *)
Theorem chain_not_in_registry (s : World) (w : Wallet.t) (tx : Tx)
    (address password : string) (txOptions : CreateTxOptions)
    (signMode : option SignMode) (info : AccountInfo) :
  wallet s = Some w ->
  networks !! chainID txOptions = None ->
  lcd_auth_accountInfo (calls s) address = OK (Some info) ->
  is_ledger (Some w) = true \/
  (is_ledger (Some w) = false /\ is_local (Some w) = true /\
   exists k, getDecryptedKey (Wallet.name w) password (storage s) =
             OK (Some k)) ->
  create txOptions s = (unknown_chain, s) /\
  sign txOptions password signMode s = (unknown_chain, s) /\
  post txOptions password signMode s = (unknown_chain, s) /\
  createSignature tx (chainID txOptions) address password s =
    (unknown_chain, logged (AccountInfoCall address) s).
Proof.
  intros Hw Hnet Hacc Hready.
  unfold create, post, sign, createSignature, unknown_chain, logged.
  destruct s as [wl st cs]; simpl in *; subst wl.
  run. rewrite Hnet, Hacc. simpl.
  destruct Hready as [Hled | (Hled & Hloc & k & Hkey)]; rewrite Hled; simpl.
  - repeat split.
  - rewrite Hloc. simpl. rewrite Hkey.
    destruct k as [seed [|] index | pk]; simpl; repeat split.
Qed.

(** X13. The account query comes first in [createSignature]: when it
    answers [undefined] the error is "Couldn't retrieve account info", when
    it is rejected the rejection is thrown, for any connected wallet, any
    chain and any password; the query is the one request made. *)
Theorem account_query_comes_first (s : World) (w : Wallet.t) (tx : Tx)
    (chain address password : string) (failure : error) :
  wallet s = Some w ->
  (lcd_auth_accountInfo (calls s) address = OK None /\
   failure = Error "Couldn't retrieve account info") \/
  lcd_auth_accountInfo (calls s) address = Throw failure ->
  createSignature tx chain address password s =
  (Throw failure, logged (AccountInfoCall address) s).
Proof.
  intros Hw Hacc. unfold createSignature, logged.
  destruct s as [wl st cs]; simpl in *; subst wl. plumbing. simpl.
  destruct Hacc as [[-> ->] | ->]; reflexivity.
Qed.

(** X14. A seed record without the legacy flag always derives for the
    requested coin type, 330 included: [createSignature] and [sign]
    construct the [SeedKey] for the chain's, [getPubkey] for its tag's;
    [signBytes] constructs it for 330.  The account index of the record is
    used, and 0 when it is missing or not a number.  What the constructor
    throws is the outcome; otherwise the operation goes on with the key. *)
Theorem seed_coin_type_not_legacy
    (s : World) (w : Wallet.t) (password seed : string)
    (index : option number) (tx : Tx) (address : string) (n : Network)
    (info : AccountInfo) (txOptions : CreateTxOptions)
    (signMode : option SignMode) (c : CoinTypeTag) (bytes : Buffer) :
  wallet s = Some w ->
  is_ledger (Some w) = false ->
  is_local (Some w) = true ->
  getDecryptedKey (Wallet.name w) password (storage s) =
    OK (Some (SeedRecord seed false index)) ->
  networks !! chainID txOptions = Some n ->
  lcd_auth_accountInfo (calls s) address = OK (Some info) ->
  let key coin := new_SeedKey (Buffer_from_hex seed) coin (or_zero index) in
  fst (createSignature tx (chainID txOptions) address password s) =
    and_then (key (parseInt (coinType n)))
      (fun key =>
         createSignatureAmino key (docOf tx (chainID txOptions) info)) /\
  fst (sign txOptions password signMode s) =
    and_then (key (parseInt (coinType n)))
      (fun key =>
         lcd_wallet_createAndSignTx (calls s) key
           (with_signMode txOptions signMode)) /\
  getPubkey c password s =
    (and_then (key (parseInt (tag c))) public_key_of, s) /\
  signBytes bytes password s =
    (and_then (key (Int 330)) (fun key => signed_by key bytes), s) /\
  (index = None \/ index = Some NaN -> forall coin, key coin =
     new_SeedKey (Buffer_from_hex seed) coin (Int 0)).
Proof.
  intros Hw Hled Hloc Hkey Hnet Hacc key.
  rewrite (createSignature_resolved tx _ address password s w n info)
    by assumption.
  rewrite (sign_resolved txOptions password signMode s w n) by assumption.
  rewrite (getPubkey_resolved c password s w) by assumption.
  rewrite (signBytes_resolved bytes password s w) by assumption.
  rewrite Hkey. unfold spec_effectiveCoinType, key. simpl.
  split; [reflexivity|]. split; [|split; [reflexivity|split; [reflexivity|]]].
  - destruct (new_SeedKey _ _ _); reflexivity.
  - intros [-> | ->] coin; reflexivity.
Qed.

(** *** Beyond the claims: export and unsigned transactions *)

(** X15. For a seed record [encodeEncryptedWallet] exports the private key
    of the very key [signBytes] signs with, constructed for coin type 118
    when the record is legacy and 330 otherwise: the blob names the
    connected wallet, gives that key's "terra" address and its private key
    encrypted under the password; what the constructor throws, and a failure
    of any of the three steps, is thrown. *)
Theorem export_of_seed_record (s : World) (w : Wallet.t)
    (password seed : string) (legacy : bool) (index : option number)
    (bytes : Buffer) :
  wallet s = Some w ->
  is_ledger (Some w) = false ->
  is_local (Some w) = true ->
  getDecryptedKey (Wallet.name w) password (storage s) =
    OK (Some (SeedRecord seed legacy index)) ->
  let constructed :=
    new_SeedKey (Buffer_from_hex seed) (if legacy then Int 118 else Int 330)
      (or_zero index) in
    signBytes bytes password s =
      (and_then constructed (fun key => signed_by key bytes), s) /\
    encodeEncryptedWallet password s =
    (and_then constructed
       (fun key =>
          match accAddress key "terra" with
          | Throw e => Throw e
          | OK address =>
              match privateKey_hex key with
              | Throw e => Throw e
              | OK hex =>
                  match encrypt (Some hex) password with
                  | Throw e => Throw e
                  | OK encrypted =>
                      OK (encode
                            (JSON_stringify
                               {| ed_name := Wallet.name w;
                                  ed_address := address;
                                  ed_encrypted_key := encrypted |}))
                  end
              end
          end), s).
Proof.
  intros Hw Hled Hloc Hkey constructed. subst constructed.
  split.
  - rewrite (signBytes_resolved bytes password s w) by assumption.
    rewrite Hkey. reflexivity.
  - unfold encodeEncryptedWallet, and_then.
    destruct s as [wl st cs]; simpl in *; subst wl.
    run. rewrite Hloc. simpl. rewrite ?Hloc. simpl. rewrite Hkey.
    destruct (new_SeedKey _ _ _) as [key|e]; [|reflexivity].
    destruct (accAddress _ _); [|reflexivity].
    destruct (privateKey_hex _); [|reflexivity].
    destruct (encrypt _ _); reflexivity.
Qed.

(** X16. For a raw-key record [encodeEncryptedWallet] exports the key and
    the address words stored under "330" and nothing else: two key stores
    whose records agree on the "330" entry give the same export for the same
    wallet and password, whatever other coin types they hold. *)
Theorem export_of_raw_record_is_330 (s1 s2 : World) (w : Wallet.t)
    (password : string) (pk1 pk2 : gmap string string) :
  wallet s1 = Some w ->
  wallet s2 = Some w ->
  is_local (Some w) = true ->
  getDecryptedKey (Wallet.name w) password (storage s1) =
    OK (Some (RawKeyRecord pk1)) ->
  getDecryptedKey (Wallet.name w) password (storage s2) =
    OK (Some (RawKeyRecord pk2)) ->
  pk1 !! "330" = pk2 !! "330" ->
  fst (encodeEncryptedWallet password s1) =
    fst (encodeEncryptedWallet password s2) /\
  fst (encodeEncryptedWallet password s1) =
    match addressFromWords (Wallet.words w !! "330") (Some "terra") with
    | Throw e => Throw e
    | OK address =>
        match encrypt (pk1 !! "330") password with
        | Throw e => Throw e
        | OK encrypted =>
            OK (encode
                  (JSON_stringify
                     {| ed_name := Wallet.name w;
                        ed_address := address;
                        ed_encrypted_key := encrypted |}))
        end
    end.
Proof.
  intros Hw1 Hw2 Hloc Hk1 Hk2 H330.
  assert (Hexport : forall s pk, wallet s = Some w ->
    getDecryptedKey (Wallet.name w) password (storage s) =
      OK (Some (RawKeyRecord pk)) ->
    fst (encodeEncryptedWallet password s) =
    match addressFromWords (Wallet.words w !! "330") (Some "terra") with
    | Throw e => Throw e
    | OK address =>
        match encrypt (pk !! "330") password with
        | Throw e => Throw e
        | OK encrypted =>
            OK (encode
                  (JSON_stringify
                     {| ed_name := Wallet.name w;
                        ed_address := address;
                        ed_encrypted_key := encrypted |}))
        end
    end).
  { intros s pk Hw Hk. unfold encodeEncryptedWallet.
    destruct s as [wl st cs]; simpl in *; subst wl.
    run. rewrite Hloc. simpl. rewrite ?Hloc. simpl. rewrite Hk.
    destruct (addressFromWords _ _); [|reflexivity].
    destruct (encrypt _ _); reflexivity. }
  rewrite (Hexport s1 pk1 Hw1 Hk1), (Hexport s2 pk2 Hw2 Hk2), H330.
  split; reflexivity.
Qed.

(** X17. Connecting a stored record that has an [address] and creating a
    transaction: the signer's address is encoded from the words of that
    address when the chain has coin type "330", and from the empty string
    for a chain of any other coin type, each with the chain's prefix; no
    password is involved. *)
Theorem create_after_connecting_legacy_record (name : string) (s : World)
    (stored : Wallet.t) (a : string) (txOptions : CreateTxOptions)
    (n : Network) :
  getStoredWallet name (storage s) = OK stored ->
  Wallet.address stored = Some a ->
  Wallet.lock stored = false ->
  networks !! chainID txOptions = Some n ->
  let words :=
    if String.eqb (coinType n) "330" then wordsFromAddress a
    else EmptyString in
  fst (bind (connect name) (fun _ => create txOptions) s) =
  match addressFromWords (Some words) (Some (prefix n)) with
  | Throw e => Throw e
  | OK address => lcd_tx_create (calls s) [address] txOptions
  end.
Proof.
  intros Hget Haddr Hlock Hnet words. subst words.
  unfold connect, create, query. run. rewrite Hget, Haddr, Hlock.
  assert (Hwords :
    nullish (({[ "330" := wordsFromAddress a ]} : gmap string string)
               !! coinType n) EmptyString =
    if String.eqb (coinType n) "330" then wordsFromAddress a
    else EmptyString).
  { destruct (String.eqb_spec (coinType n) "330") as [-> | Hne].
    - rewrite lookup_singleton_eq. reflexivity.
    - rewrite lookup_singleton_ne by congruence. reflexivity. }
  destruct (is_multisig (Some stored)); simpl; rewrite Hnet; simpl;
    rewrite Hwords; destruct (addressFromWords _ _); reflexivity.
Qed.

(** X18. Connecting a hardware wallet and using it.  When [addWallet]
    throws, [connectLedger] throws the same and nothing is connected or
    persisted.  When it succeeds and [is.ledger] holds of the descriptor,
    the device key is then asked for with the index given and over Bluetooth
    iff [bluetooth] was set, and [signBytes] refuses with "Ledger can not
    sign arbitrary data". *)
Theorem connectLedger_then_use (words pubkey : gmap string string)
    (index : number) (bluetooth : bool) (name coinType password : string)
    (bytes : Buffer) (s : World) :
  let descriptor :=
    Wallet.mk name None words (Some pubkey) true (Some index) bluetooth
      false false in
  (forall e, addWallet descriptor (storage s) = Throw e ->
     connectLedger words pubkey index bluetooth name s = (Throw e, s)) /\
  (forall st, addWallet descriptor (storage s) = OK st ->
     is_ledger (Some descriptor) = true ->
     let s' :=
       {| wallet := Some descriptor; storage := storeWallet descriptor st;
          calls := calls s |} in
     connectLedger words pubkey index bluetooth name s = (OK tt, s') /\
     bind (connectLedger words pubkey index bluetooth name)
       (fun _ => getLedgerKey coinType) s =
       (LedgerKey_create
          (if bluetooth then Some createBleTransport else None)
          (Some index) (Number coinType), s') /\
     bind (connectLedger words pubkey index bluetooth name)
       (fun _ => signBytes bytes password) s =
       (Throw (Error "Ledger can not sign arbitrary data"), s')).
Proof.
  intros descriptor. subst descriptor.
  unfold connectLedger, getLedgerKey, signBytes. plumbing. split.
  - intros e ->. reflexivity.
  - intros st -> Hled. simpl. rewrite Hled. simpl. repeat split.
Qed.

End Properties.

(** ** The statements at work

    Each statement above is applied to the concrete environment [Demo]. *)

#[local] Existing Instance Demo.carriers.
#[local] Existing Instance Demo.env.

Lemma connect_locked_witness :
  connect "vault" (Demo.connected None) =
    (Throw (Error "Wallet is locked"), Demo.connected None) /\
  connect "2019" (Demo.connected None) =
    (Throw (Error "Wallet is locked"), Demo.connected None).
Proof.
  split.
  - apply (connect_locked "vault" (Demo.connected None)
             (Demo.local "vault" true)); vm_compute; reflexivity.
  - apply (connect_locked "2019" (Demo.connected None)
             (Demo.old "2019" "terra1old" true)); vm_compute; reflexivity.
Defined.

Lemma signBytes_ledger_unsupported_witness :
  signBytes (list_byte_of_string "hello") "pw" (Demo.connected (Some Demo.nano)) =
  (Throw (Error "Ledger can not sign arbitrary data"),
   Demo.connected (Some Demo.nano)).
Proof.
  apply (signBytes_ledger_unsupported _ _ _ Demo.nano); vm_compute; reflexivity.
Defined.

(** C5 as the specification has it fails: after [connectLedger] a hardware
    wallet is connected, and [getConnectedWallet] throws "Wallet is not
    defined". *)
Lemma getConnected_returns_any_kind_fails :
  ~ getConnected_returns_any_kind.
Proof.
  intros H. destruct (H Demo.after_connectLedger) as [Hret _].
  specialize (Hret Demo.nano eq_refl). vm_compute in Hret. discriminate Hret.
Defined.

Lemma getConnectedWallet_local_only_witness :
  fst (getConnectedWallet (Demo.connected (Some (Demo.local "fresh" false)))) =
    OK (Demo.local "fresh" false) /\
  fst (getConnectedWallet Demo.after_connectLedger) =
    Throw (Error "Wallet is not defined").
Proof.
  split.
  - apply (getConnectedWallet_local_only
             (Demo.connected (Some (Demo.local "fresh" false)))).
    split; vm_compute; reflexivity.
  - apply (getConnectedWallet_local_only Demo.after_connectLedger).
    intros [w [Hw Hl]]. vm_compute in Hw. injection Hw as <-.
    vm_compute in Hl. discriminate Hl.
Defined.

Lemma legacy_seed_coin_type_witness :
  let s := Demo.connected (Some (Demo.local "legacy" false)) in
  fst (createSignature Demo.unsigned "phoenix-1" "terra1" "pw" s) =
    OK (Demo.derived 118 0, Int 0) /\
  fst (sign (Demo.tx_on "injective-1") "pw" (Some SIGN_MODE_DIRECT) s) =
    OK (Demo.derived 60 0, Some SIGN_MODE_DIRECT) /\
  fst (getPubkey tag330 "pw" s) = public_key_of (Demo.derived 118 0) /\
  fst (getPubkey tag118 "pw" s) = public_key_of (Demo.derived 118 0) /\
  fst (signBytes [] "pw" s) = signed_by (Demo.derived 118 0) [].
Proof.
  intros s.
  pose proof
    (legacy_seed_coin_type s (Demo.local "legacy" false) "pw" Demo.seed None
       Demo.unsigned "phoenix-1" "terra1"
       {| coinType := "330"; prefix := "terra" |}
       {| coinType := "60"; prefix := "inj" |}
       (Demo.account 0) (Demo.tx_on "injective-1") (Some SIGN_MODE_DIRECT) [])
    as H.
  destruct H as (H330 & _ & _ & H60 & Hp330 & Hp118 & Hbytes);
    try (vm_compute; reflexivity).
  rewrite H330 by reflexivity.
  rewrite H60 by (vm_compute; discriminate).
  rewrite Hp330, Hp118, Hbytes.
  vm_compute. repeat split; reflexivity.
Defined.

Lemma raw_key_by_coin_type_witness :
  let s := Demo.connected (Some (Demo.local "A" false)) in
  fst (createSignature Demo.unsigned "phoenix-1" "terra1" "correct-pw" s) =
    OK (Demo.raw Demo.key1, Int 0) /\
  fst (sign Demo.tx "correct-pw" None s) = OK (Demo.raw Demo.key1, None) /\
  getPubkey tag330 "correct-pw" s =
    (OK (Demo.Impl.public (Demo.raw Demo.key1)), s) /\
  getPubkey tag118 "correct-pw" s =
    (Throw (PasswordError "Incorrect password"), s) /\
  getPubkey tag118 "guess" s =
    (Throw (PasswordError "Incorrect password"), s).
Proof.
  intros s.
  assert (Hprivate : is_private_key Demo.key1).
  { split; [discriminate|vm_compute; reflexivity]. }
  pose proof
    (raw_key_by_coin_type s (Demo.local "A" false) "correct-pw"
       {[ "330" := Demo.key1 ]} Demo.unsigned "phoenix-1" "terra1"
       {| coinType := "330"; prefix := "terra" |} (Demo.account 0)
       Demo.tx None) as H.
  destruct (H tag118) as (_ & _ & _ & Hmissing & Hwrong);
    try (vm_compute; reflexivity).
  destruct (H tag330) as (Hsign & Hpub & _);
    try (vm_compute; reflexivity).
  destruct (Hsign Demo.key1 ltac:(vm_compute; reflexivity) Hprivate)
    as (_ & _ & _ & Hcs & Hsg).
  destruct (Hpub Demo.key1 ltac:(vm_compute; reflexivity) Hprivate)
    as (_ & Hkey).
  destruct (Hwrong "guess" ltac:(vm_compute; reflexivity)) as (_ & _ & Hguess).
  split; [apply Hcs; vm_compute; reflexivity|].
  split; [apply Hsg; vm_compute; reflexivity|].
  split; [apply Hkey; vm_compute; reflexivity|].
  split; [apply Hmissing; vm_compute; reflexivity|exact Hguess].
Defined.

Lemma sign_raw_ignores_signMode_witness :
  let s := Demo.connected (Some (Demo.local "A" false)) in
  fst (sign Demo.tx "correct-pw" (Some SIGN_MODE_LEGACY_AMINO_JSON) s) =
    OK (Demo.raw Demo.key1, None) /\
  sign Demo.tx "correct-pw" (Some SIGN_MODE_LEGACY_AMINO_JSON) s =
  sign Demo.tx "correct-pw" None s.
Proof.
  intros s.
  destruct
    (sign_raw_ignores_signMode Demo.tx "correct-pw" s (Demo.local "A" false)
       {| coinType := "330"; prefix := "terra" |} {[ "330" := Demo.key1 ]}
       Demo.key1 (Some SIGN_MODE_LEGACY_AMINO_JSON) None)
    as (Hcall & _ & Hsame); try (vm_compute; reflexivity).
  - discriminate.
  - split; [|exact Hsame].
    rewrite Hcall by (vm_compute; reflexivity). reflexivity.
Defined.

Lemma post_broadcasts_once_witness :
  let s := Demo.connected (Some (Demo.local "cosmos" false)) in
  let p := post (Demo.tx_on "osmosis-1") "pw" None s in
  fst p = Throw (Error "insufficient fees") /\
  broadcasts (calls (snd p)) = 1%nat /\
  fst (post Demo.tx "pw" None (Demo.connected (Some (Demo.local "fresh" false)))) =
    OK (0, "[]") /\
  post Demo.tx "pw" None (Demo.connected None) =
    (Throw (Error "Wallet is not defined"), Demo.connected None).
Proof.
  intros s p.
  destruct (post_broadcasts_once (Demo.tx_on "osmosis-1") "pw" None s)
    as (_ & _ & Hsent).
  destruct (Hsent (Demo.local "cosmos" false)
              (Demo.raw Demo.key2, None)
              (logged
                 (CreateAndSignTxCall (Demo.raw Demo.key2)
                    (Demo.tx_on "osmosis-1")) s))
    as (_ & Hcount & Hresult); try (vm_compute; reflexivity).
  destruct (post_broadcasts_once Demo.tx "pw" None
              (Demo.connected (Some (Demo.local "fresh" false))))
    as (_ & _ & Hok).
  destruct (Hok (Demo.local "fresh" false)
              (Demo.derived 330 2, None)
              (logged
                 (CreateAndSignTxCall (Demo.derived 330 2)
                    (with_signMode Demo.tx None))
                 (Demo.connected (Some (Demo.local "fresh" false)))))
    as (_ & _ & Hfresh); try (vm_compute; reflexivity).
  destruct (post_broadcasts_once Demo.tx "pw" None (Demo.connected None))
    as (Hnone & _).
  subst p. rewrite Hresult, Hcount, Hfresh, Hnone by reflexivity.
  vm_compute. repeat split; reflexivity.
Defined.

Lemma getPubkey_deterministic_witness :
  let w := Some (Demo.local "A" false) in
  fst (getPubkey tag330 "correct-pw" (Demo.connected w)) =
  fst (getPubkey tag330 "correct-pw" (Demo.later w)) /\
  snd (getPubkey tag330 "correct-pw" (Demo.connected w)) = Demo.connected w.
Proof.
  intros w.
  destruct (getPubkey_deterministic tag330 "correct-pw" (Demo.connected w)
              (Demo.later w) (Demo.local "A" false)) as (Hsame & Hworld & _);
    try (vm_compute; reflexivity).
  split; assumption.
Defined.

Lemma signBytes_raw_key_330_witness :
  let s := Demo.connected (Some (Demo.local "cosmos" false)) in
  let sA := Demo.connected (Some (Demo.local "A" false)) in
  let payload := list_byte_of_string "hello" in
  (exists message, signBytes payload "pw" s = (Throw (TypeError message), s)) /\
  getPubkey tag330 "pw" s = (Throw (PasswordError "Incorrect password"), s) /\
  signBytes payload "correct-pw" sA =
    (OK {| sb_recid := Int 0;
           sb_signature := toString_base64 payload;
           sb_public_key :=
             option_map toAmino_value (publicKey (Demo.raw Demo.key1)) |},
     sA).
Proof.
  intros s sA payload.
  destruct (signBytes_raw_key_330 payload "pw" s (Demo.local "cosmos" false)
              {[ "118" := Demo.key2 ]}) as [_ Hnone];
    try (vm_compute; reflexivity).
  destruct Hnone as (Htype & _ & Hpub); [vm_compute; reflexivity|].
  destruct (signBytes_raw_key_330 payload "correct-pw" sA
              (Demo.local "A" false) {[ "330" := Demo.key1 ]})
    as [Hentry _]; try (vm_compute; reflexivity).
  destruct (Hentry Demo.key1 ltac:(vm_compute; reflexivity)) as [_ Haccepted].
  destruct (Haccepted ltac:(vm_compute; reflexivity)) as (_ & _ & Hsigned).
  split; [exact Htype|]. split; [exact Hpub|].
  apply (Hsigned {| signature := Some payload; recid := Int 0 |});
    vm_compute; reflexivity.
Defined.

Lemma validatePassword_never_throws_witness :
  fst (validatePassword "pw" (Demo.connected None)) =
    OK (Message "Incorrect password") /\
  fst (validatePassword "pw" (Demo.connected (Some (Demo.local "fresh" false)))) =
    OK (Valid true) /\
  fst (validatePassword "guess"
         (Demo.connected (Some (Demo.local "fresh" false)))) =
    OK (Message "Incorrect password").
Proof.
  destruct (validatePassword_never_throws "pw" (Demo.connected None))
    as (_ & Hnone & _).
  destruct (validatePassword_never_throws "pw"
              (Demo.connected (Some (Demo.local "fresh" false))))
    as (_ & _ & Hok & _).
  destruct (validatePassword_never_throws "guess"
              (Demo.connected (Some (Demo.local "fresh" false))))
    as ([v Hv] & _).
  split; [|split].
  - apply (Hnone (Error "Wallet is not defined")). vm_compute. reflexivity.
  - apply (Hok (Demo.local "fresh" false)); vm_compute; reflexivity.
  - rewrite Hv. vm_compute in Hv. injection Hv as <-. reflexivity.
Defined.

(** *** Beyond the claims *)

#[local] Existing Instance Rest.env.

Lemma connect_legacy_record_witness :
  exists w,
    fst (connect "2020" (Rest.connected None)) = OK tt /\
    wallet (snd (connect "2020" (Rest.connected None))) = Some w /\
    Wallet.words w !! "330" = Some "terra1legacy" /\
    Wallet.words w !! "118" = None.
Proof.
  destruct (connect_legacy_record "2020" (Rest.connected None)
              (Demo.old "2020" "terra1legacy" false) "terra1legacy")
    as (w & Hconnect & _ & H330 & Hother & _);
    try (vm_compute; reflexivity).
  exists w. rewrite Hconnect. simpl. repeat split.
  - exact H330.
  - apply Hother. discriminate.
Defined.

Lemma lock_then_connect_witness :
  let s := Rest.connected (Some (Demo.local "fresh" false)) in
  fst (bind lock (fun _ => connect "fresh") s) =
    Throw (Error "Wallet is locked") /\
  wallet (snd (bind lock (fun _ => connect "fresh") s)) = None.
Proof.
  intros s.
  pose proof
    (lock_then_connect s (Demo.local "fresh" false)
       (Demo.Impl.locked (Demo.local "fresh" false)) Rest.locked_store) as H.
  simpl Wallet.name in H. rewrite H; try (vm_compute; reflexivity).
  split; reflexivity.
Defined.

Lemma no_wallet_no_operation_witness :
  let s := snd (disconnect (Rest.connected (Some (Demo.local "A" false)))) in
  sign Demo.tx "correct-pw" None s =
    (Throw (Error "Wallet is not defined"), s) /\
  signBytes [] "correct-pw" s = (Throw (Error "Wallet is not defined"), s) /\
  create Demo.tx s = (Throw (Error "Wallet is not defined"), s).
Proof.
  intros s.
  destruct (no_wallet_no_operation s Demo.unsigned "phoenix-1" "terra1"
              "correct-pw" tag330 Demo.tx None [])
    as (_ & _ & Hsign & Hbytes & _ & Hcreate & _); [reflexivity|].
  repeat split; assumption.
Defined.

Lemma hardware_needs_no_password_witness :
  let s1 := Demo.connected (Some Demo.nano) in
  let s2 := Rest.connected (Some Demo.nano) in
  fst (sign Demo.tx "pw" (Some SIGN_MODE_DIRECT) s1) =
    fst (sign Demo.tx "another" None s2) /\
  fst (getPubkey tag330 "pw" s1) = fst (getPubkey tag330 "another" s2).
Proof.
  intros s1 s2.
  destruct (hardware_needs_no_password s1 s2 Demo.nano tag330 Demo.unsigned
              "phoenix-1" "terra1" Demo.tx "pw" "another"
              (Some SIGN_MODE_DIRECT) None)
    as (Hpub & _ & Hsign & _); try (vm_compute; reflexivity).
  split; assumption.
Defined.

Lemma not_local_cannot_sign_witness :
  let s := Rest.connected (Some Rest.shared) in
  wallet (snd (connect "shared" (Rest.connected None))) = Some Rest.shared /\
  sign Demo.tx "pw" None s = (Throw (Error "Wallet is not defined"), s) /\
  signBytes [] "pw" s = (Throw (Error "Wallet is not defined"), s).
Proof.
  intros s.
  destruct (not_local_cannot_sign s Rest.shared Demo.unsigned "phoenix-1"
              "terra1" "pw" tag330 Demo.tx None [] (Demo.account 0))
    as (_ & Hsign & Hbytes & _); try (vm_compute; reflexivity).
  split; [vm_compute; reflexivity|]. split; assumption.
Defined.

Lemma key_that_does_not_open_witness :
  let s := Rest.connected (Some (Demo.local "A" false)) in
  let ghost := Rest.connected (Some (Demo.local "ghost" false)) in
  post Demo.tx "guess" None s =
    (Throw (PasswordError "Incorrect password"), s) /\
  encodeEncryptedWallet "guess" s =
    (Throw (PasswordError "Key do not exist"), s) /\
  signBytes [] "pw" ghost = (Throw (Error "Wallet does not exist"), ghost).
Proof.
  intros s ghost.
  destruct (key_that_does_not_open s (Demo.local "A" false) "guess" tag330
              Demo.tx None [] ltac:(vm_compute; reflexivity)
              ltac:(vm_compute; reflexivity) ltac:(vm_compute; reflexivity)
              (PasswordError "Incorrect password")
              ltac:(left; split; vm_compute; reflexivity))
    as (_ & _ & _ & Hpost & Hexport).
  destruct (key_that_does_not_open ghost (Demo.local "ghost" false) "pw"
              tag330 Demo.tx None [] ltac:(vm_compute; reflexivity)
              ltac:(vm_compute; reflexivity) ltac:(vm_compute; reflexivity)
              (Error "Wallet does not exist")
              ltac:(right; vm_compute; reflexivity))
    as (_ & _ & Hbytes & _).
  split; [exact Hpost|]. split; [|exact Hbytes].
  rewrite Hexport. vm_compute. reflexivity.
Defined.

Lemma chain_not_in_registry_witness :
  let s := Rest.connected (Some (Demo.local "A" false)) in
  create (Demo.tx_on "nowhere") s =
    (Throw (TypeError "Cannot read properties of undefined (reading 'coinType')"),
     s) /\
  post (Demo.tx_on "nowhere") "correct-pw" None s =
    (Throw (TypeError "Cannot read properties of undefined (reading 'coinType')"),
     s).
Proof.
  intros s.
  destruct (chain_not_in_registry s (Demo.local "A" false) Demo.unsigned
              "terra1" "correct-pw" (Demo.tx_on "nowhere") None
              (Demo.account 0))
    as (Hcreate & _ & Hpost & _); try (vm_compute; reflexivity).
  - right. split; [reflexivity|]. split; [reflexivity|].
    exists (RawKeyRecord {[ "330" := Demo.key1 ]}). vm_compute. reflexivity.
  - split; assumption.
Defined.

Lemma account_query_comes_first_witness :
  let s := Rest.connected (Some (Demo.local "A" false)) in
  @createSignature Demo.carriers Rest.offline Demo.unsigned "phoenix-1"
    "terra1" "guess" s =
  (Throw (Error "Couldn't retrieve account info"),
   logged (AccountInfoCall "terra1") s).
Proof.
  intros s.
  apply (@account_query_comes_first Demo.carriers Rest.offline s
           (Demo.local "A" false)); [reflexivity|].
  left. split; reflexivity.
Defined.

Lemma seed_coin_type_not_legacy_witness :
  let s := Rest.connected (Some (Demo.local "fresh" false)) in
  fst (sign Demo.tx "pw" (Some SIGN_MODE_DIRECT) s) =
    OK (Demo.derived 330 2, Some SIGN_MODE_DIRECT) /\
  fst (getPubkey tag118 "pw" s) = public_key_of (Demo.derived 118 2) /\
  fst (getPubkey tag330 "pw" s) = public_key_of (Demo.derived 330 2).
Proof.
  intros s.
  destruct (seed_coin_type_not_legacy s (Demo.local "fresh" false) "pw"
              Demo.seed (Some (Int 2)) Demo.unsigned "terra1"
              {| coinType := "330"; prefix := "terra" |} (Demo.account 0)
              Demo.tx (Some SIGN_MODE_DIRECT) tag118 [])
    as (_ & Hsign & Hpub & _); try (vm_compute; reflexivity).
  destruct (seed_coin_type_not_legacy s (Demo.local "fresh" false) "pw"
              Demo.seed (Some (Int 2)) Demo.unsigned "terra1"
              {| coinType := "330"; prefix := "terra" |} (Demo.account 0)
              Demo.tx (Some SIGN_MODE_DIRECT) tag330 [])
    as (_ & _ & Hpub' & _); try (vm_compute; reflexivity).
  rewrite Hsign, Hpub, Hpub'. vm_compute. repeat split; reflexivity.
Defined.

Lemma export_of_seed_record_witness :
  fst (encodeEncryptedWallet "pw"
         (Rest.connected (Some (Demo.local "fresh" false)))) =
    OK "fresh|terra1seed|derived/330@pw" /\
  fst (encodeEncryptedWallet "pw"
         (Demo.connected (Some (Demo.local "legacy" false)))) =
    OK "legacy|terra1seed/118|derived/118@pw".
Proof.
  destruct (export_of_seed_record
              (Rest.connected (Some (Demo.local "fresh" false)))
              (Demo.local "fresh" false) "pw" Demo.seed false (Some (Int 2))
              [])
    as [_ Hfresh]; try (vm_compute; reflexivity).
  destruct (export_of_seed_record
              (Demo.connected (Some (Demo.local "legacy" false)))
              (Demo.local "legacy" false) "pw" Demo.seed true None [])
    as [_ Hlegacy]; try (vm_compute; reflexivity).
  rewrite Hfresh, Hlegacy. vm_compute. split; reflexivity.
Defined.

Lemma export_of_raw_record_is_330_witness :
  let w := Some (Demo.local "A" false) in
  let s1 := Rest.connected w in
  let s2 := {| wallet := w; storage := Rest.store_two; calls := [] |} in
  fst (encodeEncryptedWallet "correct-pw" s1) =
    fst (encodeEncryptedWallet "correct-pw" s2) /\
  fst (encodeEncryptedWallet "correct-pw" s1) =
    OK ("A|terra1words-of-A|" ++ Demo.key1 ++ "@correct-pw").
Proof.
  intros w s1 s2.
  destruct (export_of_raw_record_is_330 s1 s2 (Demo.local "A" false)
              "correct-pw" {[ "330" := Demo.key1 ]}
              {[ "330" := Demo.key1; "118" := Demo.key2 ]})
    as [Hsame Hform]; try (vm_compute; reflexivity).
  split; [exact Hsame|]. rewrite Hform. vm_compute. reflexivity.
Defined.

Lemma create_after_connecting_legacy_record_witness :
  let then_create chain :=
    fst (bind (connect "2020") (fun _ => create (Demo.tx_on chain))
           (Rest.connected None)) in
  then_create "phoenix-1" =
    OK (RawKey (list_byte_of_string "terra1terra1legacy"), None) /\
  then_create "osmosis-1" = OK (RawKey (list_byte_of_string "osmo1"), None).
Proof.
  intros then_create. subst then_create. split.
  - rewrite (create_after_connecting_legacy_record "2020"
               (Rest.connected None) (Demo.old "2020" "terra1legacy" false)
               "terra1legacy" (Demo.tx_on "phoenix-1")
               {| coinType := "330"; prefix := "terra" |});
      vm_compute; reflexivity.
  - rewrite (create_after_connecting_legacy_record "2020"
               (Rest.connected None) (Demo.old "2020" "terra1legacy" false)
               "terra1legacy" (Demo.tx_on "osmosis-1")
               {| coinType := "118"; prefix := "osmo" |});
      vm_compute; reflexivity.
Defined.

Lemma connectLedger_then_use_witness :
  let connecting :=
    connectLedger {[ "330" := "words-of-ledger" ]}
      {[ "330" := "pubkey-of-ledger" ]} (Int 3) true "Nano" in
  fst (bind connecting (fun _ => getLedgerKey "118") (Demo.connected None)) =
    OK (LedgerKey (Some createBleTransport) (Some (Int 3)) (Int 118)) /\
  fst (bind connecting (fun _ => signBytes [] "pw") (Demo.connected None)) =
    Throw (Error "Ledger can not sign arbitrary data") /\
  @connectLedger Demo.carriers Demo.env {[ "330" := "w" ]} {[ "330" := "p" ]}
    (Int 0) false "A" (Rest.connected None) =
    (Throw (Error "Wallet already exists"), Rest.connected None).
Proof.
  intros connecting. subst connecting.
  destruct (connectLedger_then_use {[ "330" := "words-of-ledger" ]}
              {[ "330" := "pubkey-of-ledger" ]} (Int 3) true "Nano" "118"
              "pw" [] (Demo.connected None)) as [_ Hok].
  destruct (connectLedger_then_use {[ "330" := "w" ]} {[ "330" := "p" ]}
              (Int 0) false "A" "118" "pw" [] (Rest.connected None))
    as [Hfail _].
  edestruct Hok as (_ & Hkey & Hbytes); [vm_compute; reflexivity ..|].
  rewrite Hkey, Hbytes. split; [reflexivity|]. split; [reflexivity|].
  apply Hfail. vm_compute. reflexivity.
Defined.

